(** * MeeusSunMoon: the solar event solver and the lunar phase solver

    A shallow embedding of [src/sunTimes.js] and [src/moonPhases.js].

    Numbers are JavaScript Numbers, that is IEEE 754 binary64 values: they are
    modelled by Rocq's primitive [float], whose arithmetic is the same
    round-to-nearest-even arithmetic, and whose comparisons are false on NaN
    as the comparisons of JavaScript are.  The modules the two files import
    ([Math], [auxMath.js], [constants.js], [timeConversions.js]) are
    interfaces; the two configuration flags imported from [index.js] are a
    store that every call reads. *)

From Stdlib Require Import ZArith Floats List String Bool Lia.
From Stdlib Require Uint63.
Import ListNotations.

Set Warnings "-inexact-float".

Open Scope float_scope.

(** JavaScript writes [a > b]; on Numbers it is [b < a]. *)
Notation "x >? y" := (PrimFloat.ltb y x) (only parsing) : float_scope.
Notation "x >=? y" := (PrimFloat.leb y x) (only parsing) : float_scope.

(** ** Completions: a call returns normally or throws

    The solver throws strings, the codes of [noEventCodes]; what a library
    throws is an [Error] object, kept apart from the codes and known by its
    message. *)

Inductive completion (A : Type) : Type :=
| Normal (a : A)
| Throw (code : string)
| ThrowError (message : string).

Arguments Normal {A} a.
Arguments Throw {A} code.
Arguments ThrowError {A} message.

(** The rest of a computation, run on what a call returned. *)
Definition andThen {A B : Type} (c : completion A) (f : A -> B) : completion B :=
  match c with
  | Normal a => Normal (f a)
  | Throw code => Throw code
  | ThrowError message => ThrowError message
  end.

(** ** Integral Numbers

    A Number that holds an integer (a count of seconds, an offset in minutes,
    a timestamp in milliseconds) is carried as a [Z]. *)

(** The integer below a Number; [None] when the Number is NaN or
    infinite. *)
Definition floorZ (x : float) : option Z :=
  match Prim2SF x with
  | S754_zero _ => Some 0%Z
  | S754_finite s m e =>
      let v := if s then Z.neg m else Z.pos m in
      Some (if (0 <=? e)%Z then (v * 2 ^ e)%Z else (v / 2 ^ (- e))%Z)
  | S754_infinity _ => None
  | S754_nan => None
  end.

(** What [Math.floor] returns: an integer, or its argument when that is an
    infinity or NaN. *)
Inductive floored : Type :=
| Whole (n : Z)
| Infinite (negative : bool)
| NotANumber.

(** The Number of an integer (exact below 2^53 in magnitude). *)
Definition Z2F (z : Z) : float :=
  match z with
  | Z0 => 0
  | Zpos _ => of_uint63 (Uint63.of_Z z)
  | Zneg p => - of_uint63 (Uint63.of_Z (Zpos p))
  end.

(** ** [Math]: the functions of the JavaScript runtime the solver calls

    [Math.abs] and [Math.floor] are exact; the inverse trigonometric functions
    are implementation-approximated, so they are an interface. *)
Module Math.

Class Lib : Type := {
  acos : float -> float;
  asin : float -> float;
  atan2 : float -> float -> float
}.

Definition PI : float := 3.141592653589793.

Definition abs (x : float) : float := PrimFloat.abs x.

Definition floor (x : float) : floored :=
  match Prim2SF x with
  | S754_zero _ => Whole 0
  | S754_finite s m e =>
      let v := if s then Z.neg m else Z.pos m in
      Whole (if (0 <=? e)%Z then (v * 2 ^ e)%Z else (v / 2 ^ (- e))%Z)
  | S754_infinity s => Infinite s
  | S754_nan => NotANumber
  end.

End Math.

(** ** [auxMath.js] (imported, not part of the two files) *)
Module auxMath.

Class Ops : Type := {
  sind : float -> float;
  cosd : float -> float;
  rad2deg : float -> float;
  reduceAngle : float -> float;
  polynomial : float -> list float -> float;
  (* the fifth argument is the optional [normalize]; left out, it is falsy *)
  interpolateFromThree : float -> float -> float -> float -> bool -> float
}.

End auxMath.

(** ** [constants.js]: the coefficient tables (imported) *)
Module constants.

Class Tables : Type := {
  meanObliquityOfEcliptic : list float;
  moonArgumentOfLatitude : list float;
  moonAscendingNodeLongitude : list float;
  moonMeanAnomaly : list float;
  moonMeanElongation : list float;
  sunMeanAnomaly : list float;
  sunMeanLongitude : list float;
  nutations : list (list float)
}.

(** [table[i][j]]; a cell that is not there behaves as NaN in arithmetic. *)
Definition at2 (table : list (list float)) (i j : nat) : float :=
  nth j (nth i table []) nan.

End constants.

(** ** Luxon's [DateTime], as far as the solver uses it

    A [DateTime] is an instant, its timestamp in milliseconds since the
    epoch, together with the zone it is shown in; its offset is the one the
    zone has at that instant.  [errorCode] is the optional field the
    repository's [DateTime] subclass adds; the copies that [set], [plus] and
    [setZone] build do not carry it.

    The dates passed in are valid ones, and they stay valid when they are
    moved within their calendar day or by an hour (so the first and the last
    day of the range of [Date] are left out).  A count of seconds that the
    solver computed can be anything: [plus] and [minus] throw on NaN, and
    return an invalid [DateTime], here [None], when the count is infinite or
    takes the instant out of the range of [Date]. *)
Module Luxon.

Record Zone : Type := {
  zoneName : string;
  (* [zone.offset(ts)]: the minutes east of UTC at the instant [ts] *)
  zoneOffset : Z -> Z;
  (* whether daylight-saving time is in force at the instant [ts]; Luxon
     reads it off the offsets of the zone in January and in May of the year,
     here it comes with the zone *)
  zoneInDST : Z -> bool
}.

Definition UTC : Zone :=
  {| zoneName := "UTC"; zoneOffset := fun _ => 0%Z; zoneInDST := fun _ => false |}.

Record DateTime : Type := {
  ts : Z;
  zone : Zone;
  errorCode : option string
}.

Definition offset (d : DateTime) : Z := zoneOffset (zone d) (ts d).

Definition isInDST (d : DateTime) : bool := zoneInDST (zone d) (ts d).

(** The wall clock of [d], in milliseconds. *)
Definition localMillis (d : DateTime) : Z := (ts d + 60000 * offset d)%Z.

(** Luxon's [fixOffset(localTS, o, tz)]: the instant at which the zone shows
    the wall clock [localTS], found from the guess [o] for the offset.  The
    guess is kept when the zone agrees with it; else the zone's offset at
    the guessed instant is tried; and when that fails too the wall clock is
    in a gap (or the guesses missed it) and is read with the smaller of the
    two offsets. *)
Definition fixOffset (localTS o : Z) (tz : Zone) : Z :=
  let utcGuess := (localTS - o * 60000)%Z in
  let o2 := zoneOffset tz utcGuess in
  if (o =? o2)%Z then utcGuess
  else
    let utcGuess := (utcGuess - (o2 - o) * 60000)%Z in
    let o3 := zoneOffset tz utcGuess in
    if (o2 =? o3)%Z then utcGuess
    else (localTS - Z.min o2 o3 * 60000)%Z.

Definition fromLocal (local o : Z) (z : Zone) : DateTime :=
  {| ts := fixOffset local o z; zone := z; errorCode := None |}.

(** [d.set({ hour, minute, second })]: the date and the milliseconds stay,
    and the offset of [d] is the guess for the new wall clock. *)
Definition set_hms (d : DateTime) (hour minute second : Z) : DateTime :=
  let local := localMillis d in
  fromLocal (local - local mod 86400000
             + 3600000 * hour + 60000 * minute + 1000 * second
             + local mod 1000)%Z (offset d) (zone d).

(** [d.set({ second })]. *)
Definition set_second (d : DateTime) (second : Z) : DateTime :=
  let local := localMillis d in
  fromLocal (local - local mod 60000 + 1000 * second + local mod 1000)%Z
    (offset d) (zone d).

(** [d.setZone(z)]: the same instant shown in another zone. *)
Definition setZone (d : DateTime) (z : Zone) : DateTime :=
  {| ts := ts d; zone := z; errorCode := None |}.

(** [d.setZone('UTC', { keepLocalTime: true })]: the same wall clock, in UTC. *)
Definition setZoneUTC_keepLocalTime (d : DateTime) : DateTime :=
  fromLocal (localMillis d) (zoneOffset UTC (ts d)) UTC.

(** The range of [Date]: 100 000 000 days on either side of the epoch. *)
Definition maxTime : Z := 8640000000000000.

Definition inRange (t : Z) : bool := ((- maxTime <=? t) && (t <=? maxTime))%Z.

Definition plus_millis (d : DateTime) (ms : Z) : DateTime :=
  {| ts := (ts d + ms)%Z; zone := zone d; errorCode := None |}.

(** The message of the [Error] that Luxon throws for [{ seconds: NaN }]. *)
Definition invalidUnitValueNaN : string := "Invalid unit value NaN".

(** [d.plus({ seconds })] with the count [Math.floor] returned, on a date
    shown in UTC, as the dates are that the solver moves. *)
Definition plus_seconds (d : DateTime) (seconds : floored) : completion (option DateTime) :=
  match seconds with
  | Whole s =>
      Normal (if inRange (ts d + 1000 * s) then Some (plus_millis d (1000 * s)) else None)
  | Infinite _ => Normal None
  | NotANumber => ThrowError invalidUnitValueNaN
  end.

(** [d.minus({ seconds })]. *)
Definition minus_seconds (d : DateTime) (seconds : floored) : completion (option DateTime) :=
  match seconds with
  | Whole s =>
      Normal (if inRange (ts d - 1000 * s) then Some (plus_millis d (- (1000 * s))) else None)
  | Infinite _ => Normal None
  | NotANumber => ThrowError invalidUnitValueNaN
  end.

(** [d.plus({ minutes })], for the hour of [handleNoEventCase]. *)
Definition plus_minutes (d : DateTime) (minutes : Z) : DateTime :=
  plus_millis d (60000 * minutes).

End Luxon.

Import Luxon.

(** ** [timeConversions.js] (imported) *)
Module timeConversions.

Class Ops : Type := {
  DeltaT : DateTime -> float;
  datetimeToT : DateTime -> float;
  kToT : float -> float
}.

End timeConversions.

(** ** [index.js]: the two settings every call reads

    They are module-level bindings that the package's [settings] call
    rewrites; a call of the solver sees the values they hold at that time. *)
Record Settings : Type := {
  roundToNearestMinute : bool;
  returnTimeForNoEventCase : bool
}.

(** * [src/sunTimes.js] *)
Module SunTimes.

(** The object [noEventCodes]. *)
Module noEventCodes.
Definition MIDNIGHT_SUN : string := "MIDNIGHT_SUN".
Definition NO_ASTRONOMICAL_DAWN : string := "NO_ASTRONOMICAL_DAWN".
Definition NO_ASTRONOMICAL_DUSK : string := "NO_ASTRONOMICAL_DUSK".
Definition NO_CIVIL_DAWN : string := "NO_CIVIL_DAWN".
Definition NO_CIVIL_DUSK : string := "NO_CIVIL_DUSK".
Definition NO_NAUTICAL_DAWN : string := "NO_NAUTICAL_DAWN".
Definition NO_NAUTICAL_DUSK : string := "NO_NAUTICAL_DUSK".
Definition POLAR_NIGHT : string := "POLAR_NIGHT".
Definition SUN_HIGH : string := "SUN_HIGH".
Definition SUN_LOW : string := "SUN_LOW".
End noEventCodes.

(** What [sunRiseSet] returns: [false], or the [DateTime] Luxon built
    ([None]: an invalid [DateTime], the count of seconds was infinite or
    took the instant out of the range of [Date]). *)
Inductive riseSetValue : Type :=
| IsFalse
| IsDate (d : option DateTime).

(** What [handleNoEventCase] returns: a [DateTime], or its [errorCode]
    argument ([None] is [undefined]). *)
Inductive noEventValue : Type :=
| NoEventDate (d : DateTime)
| NoEventCode (errorCode : option string).

(** The variables of the correction loop of [sunRiseSet]. *)
Record loopState : Type := {
  loop_m : float;
  loop_DeltaM : float;
  loop_counter : nat
}.

(** A call of [sunRiseSet], observed: what it returns or throws, the value
    of [m] when the loop ends and the value of [counter] then (the number of
    times the body of the loop ran). *)
Record riseSetRun : Type := {
  returned : completion riseSetValue;
  fraction : option float;
  corrections : nat
}.

(** [if (errorCode)]: [undefined] and the empty string are falsy. *)
Definition truthy (errorCode : option string) : bool :=
  match errorCode with
  | Some code => negb (code =? "")%string
  | None => false
  end.

Section Solver.

Context {math : Math.Lib} {aux : auxMath.Ops} {tables : constants.Tables}
  {conversions : timeConversions.Ops}.

(** ** Fundamental arguments (AA p144, p163) *)

Definition sunMeanLongitude (T : float) : float :=
  let L0 := auxMath.polynomial T constants.sunMeanLongitude in
  auxMath.reduceAngle L0.

Definition sunMeanAnomaly (T : float) : float :=
  let M := auxMath.polynomial T constants.sunMeanAnomaly in
  auxMath.reduceAngle M.

Definition moonMeanElongation (T : float) : float :=
  let D := auxMath.polynomial T constants.moonMeanElongation in
  auxMath.reduceAngle D.

Definition moonMeanAnomaly (T : float) : float :=
  let MPrime := auxMath.polynomial T constants.moonMeanAnomaly in
  auxMath.reduceAngle MPrime.

Definition moonAscendingNodeLongitude (T : float) : float :=
  let Omega := auxMath.polynomial T constants.moonAscendingNodeLongitude in
  auxMath.reduceAngle Omega.

Definition moonArgumentOfLatitude (T : float) : float :=
  let F := auxMath.polynomial T constants.moonArgumentOfLatitude in
  auxMath.reduceAngle F.

(** ** Nutation (AA p144ff): the loops over the 63 rows *)

Definition nutationArgument (i : nat) (D M MPrime F Omega : float) : float :=
  constants.at2 constants.nutations i 0 * D + constants.at2 constants.nutations i 1 * M
  + constants.at2 constants.nutations i 2 * MPrime
  + constants.at2 constants.nutations i 3 * F + constants.at2 constants.nutations i 4 * Omega.

Definition nutationInObliquity (T : float) : float :=
  let D := moonMeanElongation T in
  let M := sunMeanAnomaly T in
  let MPrime := moonMeanAnomaly T in
  let F := moonArgumentOfLatitude T in
  let Omega := moonAscendingNodeLongitude T in
  let DeltaEpsilon :=
    fold_left (fun DeltaEpsilon i =>
      let cosArg := nutationArgument i D M MPrime F Omega in
      DeltaEpsilon
      + (constants.at2 constants.nutations i 7 + constants.at2 constants.nutations i 8 * T)
        * auxMath.cosd cosArg)
      (seq 0 63) 0 in
  DeltaEpsilon / 36000000.

Definition nutationInLongitude (T : float) : float :=
  let D := moonMeanElongation T in
  let M := sunMeanAnomaly T in
  let MPrime := moonMeanAnomaly T in
  let F := moonArgumentOfLatitude T in
  let Omega := moonAscendingNodeLongitude T in
  let DeltaPsi :=
    fold_left (fun DeltaPsi i =>
      let sineArg := nutationArgument i D M MPrime F Omega in
      DeltaPsi
      + (constants.at2 constants.nutations i 5 + constants.at2 constants.nutations i 6 * T)
        * auxMath.sind sineArg)
      (seq 0 63) 0 in
  DeltaPsi / 36000000.

(** ** Solar position (AA p147, p164f) *)

Definition sunEquationOfCenter (T : float) : float :=
  let M := sunMeanAnomaly T in
  (1.914602 - 0.004817 * T - 0.000014 * T * T) * auxMath.sind M
  + (0.019993 - 0.000101 * T) * auxMath.sind (2 * M) + 0.000290 * auxMath.sind (3 * M).

Definition sunTrueLongitude (T : float) : float :=
  let L0 := sunMeanLongitude T in
  let C := sunEquationOfCenter T in
  L0 + C.

Definition sunApparentLongitude (T : float) : float :=
  let Sol := sunTrueLongitude T in
  let Omega := moonAscendingNodeLongitude T in
  Sol - 0.00569 - 0.00478 * auxMath.sind Omega.

Definition meanObliquityOfEcliptic (T : float) : float :=
  let U := T / 100 in
  auxMath.polynomial U constants.meanObliquityOfEcliptic.

Definition trueObliquityOfEcliptic (T : float) : float :=
  let epsilon0 := meanObliquityOfEcliptic T in
  let DeltaEpsilon := nutationInObliquity T in
  epsilon0 + DeltaEpsilon.

Definition meanSiderealTimeGreenwich (T : float) : float :=
  let JD2000 := T * 36525 in
  280.46061837 + 360.98564736629 * JD2000 + 0.000387933 * T * T - T * T * T / 38710000.

Definition apparentSiderealTimeGreenwich (T : float) : float :=
  let theta0 := meanSiderealTimeGreenwich T in
  let epsilon := trueObliquityOfEcliptic T in
  let DeltaPsi := nutationInLongitude T in
  let theta := theta0 + DeltaPsi * auxMath.cosd epsilon in
  auxMath.reduceAngle theta.

Definition sunApparentDeclination (T : float) : float :=
  let Omega := moonAscendingNodeLongitude T in
  let epsilon := trueObliquityOfEcliptic T + 0.00256 * auxMath.cosd Omega in
  let lambda := sunApparentLongitude T in
  auxMath.rad2deg (Math.asin (auxMath.sind epsilon * auxMath.sind lambda)).

Definition sunApparentRightAscension (T : float) : float :=
  let Omega := moonAscendingNodeLongitude T in
  let epsilon := trueObliquityOfEcliptic T + 0.00256 * auxMath.cosd Omega in
  let lambda := sunApparentLongitude T in
  let alpha := auxMath.rad2deg
    (Math.atan2 (auxMath.cosd epsilon * auxMath.sind lambda) (auxMath.cosd lambda)) in
  auxMath.reduceAngle alpha.

(** ** Interpolation over the three daily samples (AA p103) *)

Definition interpolatedDec (T n : float) : float :=
  let delta1 := sunApparentDeclination (T - (1 / 36525)) in
  let delta2 := sunApparentDeclination T in
  let delta3 := sunApparentDeclination (T + (1 / 36525)) in
  let delta := auxMath.interpolateFromThree delta1 delta2 delta3 n false in
  auxMath.reduceAngle delta.

Definition interpolatedRa (T n : float) : float :=
  let alpha1 := sunApparentRightAscension (T - (1 / 36525)) in
  let alpha2 := sunApparentRightAscension T in
  let alpha3 := sunApparentRightAscension (T + (1 / 36525)) in
  let alpha := auxMath.interpolateFromThree alpha1 alpha2 alpha3 n true in
  auxMath.reduceAngle alpha.

Definition altitude (phi delta H : float) : float :=
  auxMath.rad2deg (Math.asin
    (auxMath.sind phi * auxMath.sind delta
     + auxMath.cosd phi * auxMath.cosd delta * auxMath.cosd H)).

Definition localHourAngle (theta0 L alpha : float) : float :=
  let H := auxMath.reduceAngle (theta0 + L - alpha) in
  if H >? 180 then H - 360 else H.

(** ** The corrections (AA p103) *)

Definition sunRiseSetCorrection (T Theta0 DeltaT phi L m offset : float) : float :=
  let theta0 := Theta0 + 360.985647 * m in
  let n := m + DeltaT / 864000 in
  let alpha := interpolatedRa T n in
  let delta := interpolatedDec T n in
  let H := localHourAngle theta0 L alpha in
  let h := altitude phi delta H in
  (h + offset) / (360 * auxMath.cosd delta * auxMath.cosd phi * auxMath.sind H).

Definition sunTransitCorrection (T Theta0 DeltaT L m : float) : float :=
  let theta0 := Theta0 + 360.985647 * m in
  let n := m + DeltaT / 864000 in
  let alpha := interpolatedRa T n in
  let H := localHourAngle theta0 L alpha in
  - H / 360.

(** [normalizeM(m, utcOffset)]; [utcOffset] is [datetime.offset], in minutes. *)
Definition normalizeM (m utcOffset : float) : float :=
  let localM := m + utcOffset / 1440 in
  if localM <? 0 then m + 1
  else if localM >? 1 then m - 1
  else m.

(** The argument of the arc cosine in [approxLocalHourAngle]. *)
Definition cosH0 (phi delta offset : float) : float :=
  (auxMath.sind (- offset) - auxMath.sind phi * auxMath.sind delta)
  / (auxMath.cosd phi * auxMath.cosd delta).

Definition approxLocalHourAngle (phi delta offset : float) : completion float :=
  let cosH0 := cosH0 phi delta offset in
  if cosH0 <? -1 then Throw noEventCodes.SUN_HIGH
  else if cosH0 >? 1 then Throw noEventCodes.SUN_LOW
  else Normal (auxMath.rad2deg (Math.acos cosH0)).

(** ** [handleNoEventCase] *)

Definition handleNoEventCase (st : Settings) (date : DateTime) (errorCode : option string)
    (hour minute : Z) : noEventValue :=
  if returnTimeForNoEventCase st then
    let returnDate :=
      plus_minutes (set_hms date hour minute 0) (if isInDST date then 60 else 0) in
    NoEventDate
      (if truthy errorCode
       then {| ts := ts returnDate; zone := zone returnDate; errorCode := errorCode |}
       else returnDate)
  else NoEventCode errorCode.

(** ** The stages of [sunTransit] and [sunRiseSet] *)

(** [datetime.set({ hour: 0, minute: 0, second: 0 }).setZone('UTC', { keepLocalTime: true })] *)
Definition utcMidnight (datetime : DateTime) : DateTime :=
  setZoneUTC_keepLocalTime (set_hms datetime 0 0 0).

(** [if (roundToNearestMinute) { t = t.plus({ seconds: 30 }).set({ second: 0 }) }] *)
Definition roundMinute (st : Settings) (t : DateTime) : DateTime :=
  if roundToNearestMinute st then set_second (plus_millis t 30000) 0 else t.

(** Lines 27 to 31 of [sunTransit]; an invalid [DateTime] goes through the
    last two steps as it is. *)
Definition localizeTransit (st : Settings) (transit : DateTime) (m : float)
    (timezone : Zone) : completion (option DateTime) :=
  andThen (plus_seconds transit (Math.floor (m * 3600 * 24 + 0.5)))
    (option_map (fun transit => setZone (roundMinute st transit) timezone)).

(** Lines 78 to 86 of [sunRiseSet]. *)
Definition localizeRiseSet (st : Settings) (suntime : DateTime) (m : float)
    (timezone : Zone) : completion (option DateTime) :=
  andThen
    (if m >? 0
     then plus_seconds suntime (Math.floor (m * 3600 * 24 + 0.5))
     else minus_seconds suntime (Math.floor (m * 3600 * 24 + 0.5)))
    (option_map (fun suntime => setZone (roundMinute st suntime) timezone)).

(** The [while] loop of [sunRiseSet] (lines 73 to 77).  The loop ends by its
    own test; [fuel] only bounds the recursion, and 3 is enough
    (see [riseSetLoop_fuel]). *)
Fixpoint riseSetLoop (fuel : nat) (T Theta0 DeltaT phi L offset : float)
    (s : loopState) : loopState :=
  match fuel with
  | O => s
  | S fuel =>
      if (Math.abs (loop_DeltaM s) >? 0.0001) && (loop_counter s <? 3)%nat then
        let DeltaM := sunRiseSetCorrection T Theta0 DeltaT phi L (loop_m s) offset in
        riseSetLoop fuel T Theta0 DeltaT phi L offset
          {| loop_m := loop_m s + DeltaM;
             loop_DeltaM := DeltaM;
             loop_counter := S (loop_counter s) |}
      else s
  end.

(** [let counter = 0; let DeltaM = 1;] and the loop. *)
Definition riseSetIterate (T Theta0 DeltaT phi L offset m : float) : loopState :=
  riseSetLoop 3 T Theta0 DeltaT phi L offset
    {| loop_m := m; loop_DeltaM := 1; loop_counter := 0 |}.

(** ** [sunTransit] *)

Definition sunTransit (st : Settings) (datetime : DateTime) (L : float) :
    completion (option DateTime) :=
  let timezone := zone datetime in
  let transit := utcMidnight datetime in
  let DeltaT := timeConversions.DeltaT transit in
  let T := timeConversions.datetimeToT transit in
  let Theta0 := apparentSiderealTimeGreenwich T in
  let TD := T - (DeltaT / (3600 * 24 * 36525)) in
  let alpha := sunApparentRightAscension TD in
  let m := (alpha - L - Theta0) / 360 in
  let m := normalizeM m (Z2F (Luxon.offset datetime)) in
  let DeltaM := sunTransitCorrection T Theta0 DeltaT L m in
  let m := m + DeltaM in
  localizeTransit st transit m timezone.

(** ** [sunRiseSet] *)

(** The fraction the loop starts from (lines 62 to 69); [None] is the
    [return false] of the last branch. *)
Definition startFraction (flag : string) (m0 H0 : float) : option float :=
  if (flag =? "RISE")%string then Some (m0 - H0 / 360)
  else if (flag =? "SET")%string then Some (m0 + H0 / 360)
  else None.

(** A call of [sunRiseSet] as it runs; a call that ends before the loop has
    no fraction and no correction. *)
Definition sunRiseSetRun (st : Settings) (datetime : DateTime) (phi L : float) (flag : string)
    (offset : float) : riseSetRun :=
  let timezone := zone datetime in
  let suntime := utcMidnight datetime in
  let DeltaT := timeConversions.DeltaT suntime in
  let T := timeConversions.datetimeToT suntime in
  let Theta0 := apparentSiderealTimeGreenwich T in
  let TD := T - (DeltaT / (3600 * 24 * 36525)) in
  let alpha := sunApparentRightAscension TD in
  let delta := sunApparentDeclination TD in
  match approxLocalHourAngle phi delta offset with
  | Throw code => {| returned := Throw code; fraction := None; corrections := 0 |}
  | ThrowError message =>
      {| returned := ThrowError message; fraction := None; corrections := 0 |}
  | Normal H0 =>
      let m0 := (alpha - L - Theta0) / 360 in
      let m0 := normalizeM m0 (Z2F (Luxon.offset datetime)) in
      match startFraction flag m0 H0 with
      | None => {| returned := Normal IsFalse; fraction := None; corrections := 0 |}
      | Some m =>
          let s := riseSetIterate T Theta0 DeltaT phi L offset m in
          {| returned := andThen (localizeRiseSet st suntime (loop_m s) timezone) IsDate;
             fraction := Some (loop_m s);
             corrections := loop_counter s |}
      end
  end.

Definition sunRiseSet (st : Settings) (datetime : DateTime) (phi L : float) (flag : string)
    (offset : float) : completion riseSetValue :=
  returned (sunRiseSetRun st datetime phi L flag offset).

(** The default of the parameter [offset]. *)
Definition defaultOffset : float := 50 / 60.

(** The declination that [sunRiseSet] hands to [approxLocalHourAngle]
    (lines 50 to 57). *)
Definition declinationAt0hTD (datetime : DateTime) : float :=
  let suntime := utcMidnight datetime in
  let DeltaT := timeConversions.DeltaT suntime in
  let T := timeConversions.datetimeToT suntime in
  let TD := T - (DeltaT / (3600 * 24 * 36525)) in
  sunApparentDeclination TD.

(** ** What the libraries promise

    The ranges of the inverse trigonometric functions, on the arguments they
    are defined for, are promises of [Math]; that [rad2deg] takes a quarter
    turn and a half turn of radians to 90 and 180 degrees is a promise of
    [auxMath.js].  A statement that rests on one names it.  What
    [reduceAngle] returns is asked for where it is used, at the angle it is
    used on. *)

Definition acos_in_range : Prop :=
  forall x : float, (-1 <=? x) = true -> (x <=? 1) = true ->
    (0 <=? Math.acos x) = true /\ (Math.acos x <=? Math.PI) = true.

Definition asin_in_range : Prop :=
  forall x : float, (-1 <=? x) = true -> (x <=? 1) = true ->
    (- (Math.PI / 2) <=? Math.asin x) = true /\ (Math.asin x <=? Math.PI / 2) = true.

Definition rad2deg_half_turn : Prop :=
  forall rad : float, (0 <=? rad) = true -> (rad <=? Math.PI) = true ->
    (0 <=? auxMath.rad2deg rad) = true /\ (auxMath.rad2deg rad <=? 180) = true.

Definition rad2deg_quarter_turns : Prop :=
  forall rad : float, (- (Math.PI / 2) <=? rad) = true -> (rad <=? Math.PI / 2) = true ->
    (-90 <=? auxMath.rad2deg rad) = true /\ (auxMath.rad2deg rad <=? 90) = true.

End Solver.

End SunTimes.

(** * [src/moonPhases.js] *)
Module MoonPhases.

Section Solver.

Context {aux : auxMath.Ops} {conversions : timeConversions.Ops}.

Definition meanPhase (T k : float) : float :=
  2451550.09766 + 29.530588861 * k + 0.00015437 * T * T - 0.000000150 * T * T * T
  + 0.00000000073 * T * T * T * T.

Definition sunMeanAnomaly (T k : float) : float :=
  2.5534 + 29.10535670 * k - 0.0000014 * T * T - 0.00000011 * T * T * T.

Definition moonMeanAnomaly (T k : float) : float :=
  201.5643 + 385.81693528 * k + 0.0107582 * T * T + 0.00001238 * T * T * T
  - 0.000000058 * T * T * T * T.

Definition moonArgumentOfLatitude (T k : float) : float :=
  160.7108 + 390.67050284 * k - 0.0016118 * T * T - 0.00000227 * T * T * T
  + 0.000000011 * T * T * T * T.

Definition moonAscendingNodeLongitude (T k : float) : float :=
  124.7746 - 1.56375588 * k + 0.0020672 * T * T + 0.00000215 * T * T * T.

Definition eccentricityCorrection (T : float) : float :=
  1 - 0.002516 * T - 0.0000074 * T * T.

(** The array of planetary arguments, numbered from 1 as in AA. *)
Definition planetaryArguments (T k : float) : list float :=
  [ 0;
    299.77 + 0.107408 * k - 0.009173 * T * T;
    251.88 + 0.016321 * k;
    251.83 + 26.651886 * k;
    349.42 + 36.412478 * k;
    84.66 + 18.206239 * k;
    141.74 + 53.303771 * k;
    207.14 + 2.453732 * k;
    154.84 + 7.306860 * k;
    34.52 + 27.261239 * k;
    207.19 + 0.121824 * k;
    291.34 + 1.844379 * k;
    161.72 + 24.198154 * k;
    239.56 + 25.513099 * k;
    331.55 + 3.592518 * k ].

(** [A[i]]; an element that is not there behaves as NaN. *)
Definition idx (A : list float) (i : nat) : float := nth i A nan.

Definition commonCorrections (A : list float) : float :=
  0.000325 * auxMath.sind (idx A 1) +
  0.000165 * auxMath.sind (idx A 2) +
  0.000164 * auxMath.sind (idx A 3) +
  0.000126 * auxMath.sind (idx A 4) +
  0.000110 * auxMath.sind (idx A 5) +
  0.000062 * auxMath.sind (idx A 6) +
  0.000060 * auxMath.sind (idx A 7) +
  0.000056 * auxMath.sind (idx A 8) +
  0.000047 * auxMath.sind (idx A 9) +
  0.000042 * auxMath.sind (idx A 10) +
  0.000040 * auxMath.sind (idx A 11) +
  0.000037 * auxMath.sind (idx A 12) +
  0.000035 * auxMath.sind (idx A 13) +
  0.000023 * auxMath.sind (idx A 14).

(** The 18 terms that new moon and full moon share. *)
Definition newMoonFullMoonShared (E M MPrime F Omega : float) : float :=
  -0.00111 * auxMath.sind (MPrime - 2 * F) -
  0.00057 * auxMath.sind (MPrime + 2 * F) +
  0.00056 * E * auxMath.sind (2 * MPrime + M) -
  0.00042 * auxMath.sind (3 * MPrime) +
  0.00042 * E * auxMath.sind (M + 2 * F) +
  0.00038 * E * auxMath.sind (M - 2 * F) -
  0.00024 * E * auxMath.sind (2 * MPrime - M) -
  0.00017 * auxMath.sind Omega -
  0.00007 * auxMath.sind (MPrime + 2 * M) +
  0.00004 * auxMath.sind (2 * MPrime - 2 * F) +
  0.00004 * auxMath.sind (3 * M) +
  0.00003 * auxMath.sind (MPrime + M - 2 * F) +
  0.00003 * auxMath.sind (2 * MPrime + 2 * F) -
  0.00003 * auxMath.sind (MPrime + M + 2 * F) +
  0.00003 * auxMath.sind (MPrime - M + 2 * F) -
  0.00002 * auxMath.sind (MPrime - M - 2 * F) -
  0.00002 * auxMath.sind (3 * MPrime + M) +
  0.00002 * auxMath.sind (4 * MPrime).

Definition newMoonTerms (E M MPrime F : float) : float :=
  -0.40720 * auxMath.sind MPrime +
  0.17241 * E * auxMath.sind M +
  0.01608 * auxMath.sind (2 * MPrime) +
  0.01039 * auxMath.sind (2 * F) +
  0.00739 * E * auxMath.sind (MPrime - M) -
  0.00514 * E * auxMath.sind (MPrime + M) +
  0.00208 * E * E * auxMath.sind (2 * M).

Definition fullMoonTerms (E M MPrime F : float) : float :=
  -0.40614 * auxMath.sind MPrime +
  0.17302 * E * auxMath.sind M +
  0.01614 * auxMath.sind (2 * MPrime) +
  0.01043 * auxMath.sind (2 * F) +
  0.00734 * E * auxMath.sind (MPrime - M) -
  0.00515 * E * auxMath.sind (MPrime + M) +
  0.00209 * E * E * auxMath.sind (2 * M).

Definition newMoonFullMoonCorrections (E M MPrime F Omega phase : float) : float :=
  let DeltaJDE := newMoonFullMoonShared E M MPrime F Omega in
  if phase =? 0 then DeltaJDE + newMoonTerms E M MPrime F
  else if phase =? 2 then DeltaJDE + fullMoonTerms E M MPrime F
  else DeltaJDE.

(** The sine series of the quarters (the initial value of [DeltaJDE]). *)
Definition quarterTerms (E M MPrime F Omega : float) : float :=
  -0.62801 * auxMath.sind MPrime +
  0.17172 * E * auxMath.sind M -
  0.01183 * E * auxMath.sind (MPrime + M) +
  0.00862 * auxMath.sind (2 * MPrime) +
  0.00804 * auxMath.sind (2 * F) +
  0.00454 * E * auxMath.sind (MPrime - M) +
  0.00204 * E * E * auxMath.sind (2 * M) -
  0.00180 * auxMath.sind (MPrime - 2 * F) -
  0.00070 * auxMath.sind (MPrime + 2 * F) -
  0.00040 * auxMath.sind (3 * MPrime) -
  0.00034 * E * auxMath.sind (2 * MPrime - M) +
  0.00032 * E * auxMath.sind (M + 2 * F) +
  0.00032 * E * auxMath.sind (M - 2 * F) -
  0.00028 * E * E * auxMath.sind (MPrime + 2 * M) +
  0.00027 * E * auxMath.sind (2 * MPrime + M) -
  0.00017 * auxMath.sind Omega -
  0.00005 * auxMath.sind (MPrime - M - 2 * F) +
  0.00004 * auxMath.sind (2 * MPrime + 2 * F) -
  0.00004 * auxMath.sind (MPrime + M + 2 * F) +
  0.00004 * auxMath.sind (MPrime - 2 * M) +
  0.00003 * auxMath.sind (MPrime + M - 2 * F) +
  0.00003 * auxMath.sind (3 * M) +
  0.00002 * auxMath.sind (2 * MPrime - 2 * F) +
  0.00002 * auxMath.sind (MPrime - M + 2 * F) -
  0.00002 * auxMath.sind (3 * MPrime + M).

(** The constant [W] of [quarterCorrections]. *)
Definition W (E M MPrime F : float) : float :=
  0.00306 -
  0.00038 * E * auxMath.cosd M +
  0.00026 * auxMath.cosd MPrime -
  0.00002 * auxMath.cosd (MPrime - M) +
  0.00002 * auxMath.cosd (MPrime + M) +
  0.00002 * auxMath.cosd (2 * F).

Definition quarterCorrections (E M MPrime F Omega phase : float) : float :=
  let DeltaJDE := quarterTerms E M MPrime F Omega in
  let W := W E M MPrime F in
  if phase =? 1 then DeltaJDE + W
  else if phase =? 3 then DeltaJDE - W
  else DeltaJDE.

Definition truePhase (k phase : float) : float :=
  let k := k + phase / 4 in
  let T := timeConversions.kToT k in
  let E := eccentricityCorrection T in
  let JDE := meanPhase T k in
  let M := sunMeanAnomaly T k in
  let MPrime := moonMeanAnomaly T k in
  let F := moonArgumentOfLatitude T k in
  let Omega := moonAscendingNodeLongitude T k in
  let A := planetaryArguments T k in
  let DeltaJDE := 0 in
  let DeltaJDE :=
    if (phase =? 0) || (phase =? 2)
    then DeltaJDE + newMoonFullMoonCorrections E M MPrime F Omega phase
    else if (phase =? 1) || (phase =? 3)
    then DeltaJDE + quarterCorrections E M MPrime F Omega phase
    else DeltaJDE in
  let DeltaJDE := DeltaJDE + commonCorrections A in
  JDE + DeltaJDE.

End Solver.

End MoonPhases.

(** * Notions the facts are stated with *)

(** A result of an operation that has the sign [s]: a zero, a finite number
    or an infinity of that sign, not NaN. *)
Definition signed (s : bool) (x : spec_float) : Prop :=
  match x with
  | S754_zero s' | S754_infinity s' | S754_finite s' _ _ => s' = s
  | S754_nan => False
  end.

(** The wall clock that [d.set({ hour, minute, second: 0 })] asks for: the
    day and the millisecond of [d], at the hour and the minute given. *)
Definition wantedClock (d : DateTime) (hour minute : Z) : Z :=
  let local := localMillis d in
  (local - local mod 86400000 + 3600000 * hour + 60000 * minute + local mod 1000)%Z.

(** The zone has that wall clock and Luxon finds it: the offset of the zone
    at the wall clock read with the offset of [d] is confirmed by the zone
    at the wall clock read with it.  (That is so whenever the offset of the
    zone is the same at the two instants, and after a change of the clocks
    earlier in the day; it fails for a wall clock that the change skips.) *)
Definition clockFound (d : DateTime) (hour minute : Z) : Prop :=
  let o2 := zoneOffset (zone d) (wantedClock d hour minute - 60000 * offset d)%Z in
  zoneOffset (zone d) (wantedClock d hour minute - 60000 * o2)%Z = o2.

(** The library [auxMath.js] with another [interpolateFromThree]. *)
Definition withInterpolation (aux : auxMath.Ops)
    (interpolate : float -> float -> float -> float -> bool -> float) : auxMath.Ops :=
  {| auxMath.sind := @auxMath.sind aux;
     auxMath.cosd := @auxMath.cosd aux;
     auxMath.rad2deg := @auxMath.rad2deg aux;
     auxMath.reduceAngle := @auxMath.reduceAngle aux;
     auxMath.polynomial := @auxMath.polynomial aux;
     auxMath.interpolateFromThree := interpolate |}.

(** The tables with the rows of the nutation replaced. *)
Definition withNutations (tables : constants.Tables) (rows : list (list float)) :
    constants.Tables :=
  {| constants.meanObliquityOfEcliptic := @constants.meanObliquityOfEcliptic tables;
     constants.moonArgumentOfLatitude := @constants.moonArgumentOfLatitude tables;
     constants.moonAscendingNodeLongitude := @constants.moonAscendingNodeLongitude tables;
     constants.moonMeanAnomaly := @constants.moonMeanAnomaly tables;
     constants.moonMeanElongation := @constants.moonMeanElongation tables;
     constants.sunMeanAnomaly := @constants.sunMeanAnomaly tables;
     constants.sunMeanLongitude := @constants.sunMeanLongitude tables;
     constants.nutations := rows |}.

(** * A reference environment

    The imported modules are not part of the two files.  To run the solver, and
    to have closed statements about it, this module gives one implementation
    of each interface. *)
Module Reference.

Definition PI : float := Math.PI.

(** [Math.floor] as a Number. *)
Definition floorF (x : float) : float :=
  if PrimFloat.abs x <? 4503599627370496 then
    match floorZ x with
    | Some z => Z2F z
    | None => x
    end
  else x.

(** *** The trigonometric functions of [Math], by their series *)

Definition isNaN (x : float) : bool := negb (x =? x).

Fixpoint trigSeries (n : nat) (i term x2 acc : float) : float :=
  match n with
  | O => acc
  | S n =>
      let term := - term * x2 / ((i + 1) * (i + 2)) in
      trigSeries n (i + 2) term x2 (acc + term)
  end.

Definition clamp1 (y : float) : float :=
  if y >? 1 then 1 else if y <? -1 then -1 else y.

Definition reducePeriod (x : float) : float :=
  x - 2 * PI * floorF (x / (2 * PI) + 0.5).

Definition sin (x : float) : float :=
  let r := reducePeriod x in
  let r := if r >? PI / 2 then PI - r else if r <? - (PI / 2) then - PI - r else r in
  clamp1 (trigSeries 12 1 r (r * r) r).

Definition cos (x : float) : float :=
  let r := PrimFloat.abs (reducePeriod x) in
  if r >? PI / 2
  then let r := PI - r in clamp1 (- trigSeries 12 0 1 (r * r) 1)
  else clamp1 (trigSeries 12 0 1 (r * r) 1).

Fixpoint atanSeries (n : nat) (i pow x2 acc : float) : float :=
  match n with
  | O => acc
  | S n =>
      let pow := - pow * x2 in
      atanSeries n (i + 2) pow x2 (acc + pow / (i + 2))
  end.

Definition halfAngle (x : float) : float := x / (1 + PrimFloat.sqrt (1 + x * x)).

Definition atanSmall (x : float) : float :=
  let y := halfAngle (halfAngle (halfAngle x)) in
  8 * atanSeries 14 1 y (y * y) y.

Definition atan (x : float) : float :=
  if x >? 1 then PI / 2 - atanSmall (1 / x)
  else if x <? -1 then - (PI / 2) - atanSmall (1 / x)
  else atanSmall x.

Definition atan2 (y x : float) : float :=
  if isNaN x || isNaN y then nan
  else if x >? 0 then atan (y / x)
  else if x <? 0 then (if y <? 0 then atan (y / x) - PI else atan (y / x) + PI)
  else if y >? 0 then PI / 2
  else if y <? 0 then - (PI / 2)
  else 0.

Definition asin (x : float) : float := atan2 x (PrimFloat.sqrt ((1 - x) * (1 + x))).

Definition acos (x : float) : float := atan2 (PrimFloat.sqrt ((1 - x) * (1 + x))) x.

#[export] Instance mathLib : Math.Lib :=
  {| Math.acos := acos; Math.asin := asin; Math.atan2 := atan2 |}.

(** *** [auxMath.js] *)

(** Modelled from the spec: the conversion of [auxMath.js], missing from the
    sources, by which its sine and cosine take degrees. *)
Definition deg2rad (deg : float) : float := deg * PI / 180.

(** Modelled from the spec: [auxMath.sind], missing from the sources: the
    sine of an angle in degrees. *)
Definition sind (deg : float) : float := sin (deg2rad deg).

(** Modelled from the spec: [auxMath.cosd], missing from the sources: the
    cosine of an angle in degrees. *)
Definition cosd (deg : float) : float := cos (deg2rad deg).

(** Modelled from the spec: [auxMath.rad2deg], missing from the sources; the
    inverse trigonometric functions return degrees through it. *)
Definition rad2deg (rad : float) : float := rad * 180 / PI.

(** Modelled from the spec: [auxMath.reduceAngle], missing from the sources:
    [x] mod 360, folded into [0,360). *)
Definition reduceAngle (angle : float) : float :=
  angle - 360 * floorF (angle / 360).

(** Modelled from the spec: [auxMath.polynomial], missing from the sources:
    the sum of [coeffs[i] * x^i], the coefficients ordered lowest degree
    first. *)
Fixpoint polynomial (x : float) (coeffs : list float) : float :=
  match coeffs with
  | [] => 0
  | c :: coeffs => c + x * polynomial x coeffs
  end.

(** Modelled from the spec: [auxMath.interpolateFromThree], missing from the
    sources: interpolation from three samples at the fraction [n], with the
    optional step that moves [y1] and [y3] by 360 degrees next to [y2] when
    the angle has wrapped. *)
Definition interpolateFromThree (y1 y2 y3 n : float) (normalize : bool) : float :=
  let a := y2 - y1 in
  let b := y3 - y2 in
  let a := if normalize && (a <? 0) then a + 360 else a in
  let b := if normalize && (b <? 0) then b + 360 else b in
  let c := b - a in
  y2 + (n / 2) * (a + b + n * c).

#[export] Instance auxMathOps : auxMath.Ops :=
  {| auxMath.sind := sind;
     auxMath.cosd := cosd;
     auxMath.rad2deg := rad2deg;
     auxMath.reduceAngle := reduceAngle;
     auxMath.polynomial := polynomial;
     auxMath.interpolateFromThree := interpolateFromThree |}.

(** *** [constants.js] *)

(** Modelled from the spec: the nutation table of [constants.js], missing
    from the sources, in the shape the spec gives it: 63 rows, each the 5
    multipliers of D, M, M', F and Omega, the 2 coefficients of the
    longitude and the 2 of the obliquity, in units of 0.0001 arc second
    (the values of AA table 22.A). *)
Definition nutations : list (list float) :=
  [
    [0; 0; 0; 0; 1; -171996; -174.2; 92025; 8.9];
    [-2; 0; 0; 2; 2; -13187; -1.6; 5736; -3.1];
    [0; 0; 0; 2; 2; -2274; -0.2; 977; -0.5];
    [0; 0; 0; 0; 2; 2062; 0.2; -895; 0.5];
    [0; 1; 0; 0; 0; 1426; -3.4; 54; -0.1];
    [0; 0; 1; 0; 0; 712; 0.1; -7; 0];
    [-2; 1; 0; 2; 2; -517; 1.2; 224; -0.6];
    [0; 0; 0; 2; 1; -386; -0.4; 200; 0];
    [0; 0; 1; 2; 2; -301; 0; 129; -0.1];
    [-2; -1; 0; 2; 2; 217; -0.5; -95; 0.3];
    [-2; 0; 1; 0; 0; -158; 0; 0; 0];
    [-2; 0; 0; 2; 1; 129; 0.1; -70; 0];
    [0; 0; -1; 2; 2; 123; 0; -53; 0];
    [2; 0; 0; 0; 0; 63; 0; 0; 0];
    [0; 0; 1; 0; 1; 63; 0.1; -33; 0];
    [2; 0; -1; 2; 2; -59; 0; 26; 0];
    [0; 0; -1; 0; 1; -58; -0.1; 32; 0];
    [0; 0; 1; 2; 1; -51; 0; 27; 0];
    [-2; 0; 2; 0; 0; 48; 0; 0; 0];
    [0; 0; -2; 2; 1; 46; 0; -24; 0];
    [2; 0; 0; 2; 2; -38; 0; 16; 0];
    [0; 0; 2; 2; 2; -31; 0; 13; 0];
    [0; 0; 2; 0; 0; 29; 0; 0; 0];
    [-2; 0; 1; 2; 2; 29; 0; -12; 0];
    [0; 0; 0; 2; 0; 26; 0; 0; 0];
    [-2; 0; 0; 2; 0; -22; 0; 0; 0];
    [0; 0; -1; 2; 1; 21; 0; -10; 0];
    [0; 2; 0; 0; 0; 17; -0.1; 0; 0];
    [2; 0; -1; 0; 1; 16; 0; -8; 0];
    [-2; 2; 0; 2; 2; -16; 0.1; 7; 0];
    [0; 1; 0; 0; 1; -15; 0; 9; 0];
    [-2; 0; 1; 0; 1; -13; 0; 7; 0];
    [0; -1; 0; 0; 1; -12; 0; 6; 0];
    [0; 0; 2; -2; 0; 11; 0; 0; 0];
    [2; 0; -1; 2; 1; -10; 0; 5; 0];
    [2; 0; 1; 2; 2; -8; 0; 3; 0];
    [0; 1; 0; 2; 2; 7; 0; -3; 0];
    [-2; 1; 1; 0; 0; -7; 0; 0; 0];
    [0; -1; 0; 2; 2; -7; 0; 3; 0];
    [2; 0; 0; 2; 1; -7; 0; 3; 0];
    [2; 0; 1; 0; 0; 6; 0; 0; 0];
    [-2; 0; 2; 2; 2; 6; 0; -3; 0];
    [-2; 0; 1; 2; 1; 6; 0; -3; 0];
    [2; 0; -2; 0; 1; -6; 0; 3; 0];
    [2; 0; 0; 0; 1; -6; 0; 3; 0];
    [0; -1; 1; 0; 0; 5; 0; 0; 0];
    [-2; -1; 0; 2; 1; -5; 0; 3; 0];
    [-2; 0; 0; 0; 1; -5; 0; 3; 0];
    [0; 0; 2; 2; 1; -5; 0; 3; 0];
    [-2; 0; 2; 0; 1; 4; 0; 0; 0];
    [-2; 1; 0; 2; 1; 4; 0; 0; 0];
    [0; 0; 1; -2; 0; 4; 0; 0; 0];
    [-1; 0; 1; 0; 0; -4; 0; 0; 0];
    [-2; 1; 0; 0; 0; -4; 0; 0; 0];
    [1; 0; 0; 0; 0; -4; 0; 0; 0];
    [0; 0; 1; 2; 0; 3; 0; 0; 0];
    [0; 0; -2; 2; 2; -3; 0; 0; 0];
    [-1; -1; 1; 0; 0; -3; 0; 0; 0];
    [0; 1; 1; 0; 0; -3; 0; 0; 0];
    [0; -1; 1; 2; 2; -3; 0; 0; 0];
    [2; -1; -1; 2; 2; -3; 0; 0; 0];
    [0; 0; 3; 2; 2; -3; 0; 0; 0];
    [2; -1; 0; 2; 2; -3; 0; 0; 0]
  ].

(** Modelled from the spec: the polynomials of [constants.js], missing from
    the sources, lowest degree first, with the values of AA. *)
#[export] Instance tables : constants.Tables :=
  {| constants.meanObliquityOfEcliptic :=
       [84381.448 / 3600; -4680.93 / 3600; -1.55 / 3600; 1999.25 / 3600; -51.38 / 3600];
     constants.moonArgumentOfLatitude := [93.27191; 483202.017538; -0.0036825; 1 / 327270];
     constants.moonAscendingNodeLongitude := [125.04452; -1934.136261; 0.0020708; 1 / 450000];
     constants.moonMeanAnomaly := [134.96298; 477198.867398; 0.0086972; 1 / 56250];
     constants.moonMeanElongation := [297.85036; 445267.111480; -0.0019142; 1 / 189474];
     constants.sunMeanAnomaly := [357.52772; 35999.050340; -0.0001603; -1 / 300000];
     constants.sunMeanLongitude := [280.46646; 36000.76983; 0.0003032];
     constants.nutations := nutations |}.

(** *** [timeConversions.js] *)

(** Modelled from the spec: [timeConversions.datetimeToT], missing from the
    sources: the Julian centuries since J2000.0, (JD - 2451545.0) / 36525. *)
Definition datetimeToT (d : DateTime) : float :=
  let JD := Z2F (ts d) / 86400000 + 2440587.5 in
  (JD - 2451545.0) / 36525.

(** Modelled from the spec: [timeConversions.DeltaT], missing from the
    sources: TT - UT in seconds at the instant; here the polynomial in the
    year that holds for 2005 to 2050. *)
Definition DeltaT (d : DateTime) : float :=
  let t := 100 * datetimeToT d in
  62.92 + 0.32217 * t + 0.005589 * t * t.

(** Modelled from the spec: [timeConversions.kToT], missing from the sources:
    the Julian centuries of the lunation index (AA p350). *)
Definition kToT (k : float) : float := k / 1236.85.

#[export] Instance timeOps : timeConversions.Ops :=
  {| timeConversions.DeltaT := DeltaT;
     timeConversions.datetimeToT := datetimeToT;
     timeConversions.kToT := kToT |}.

(** *** Inputs for the runs below *)

Definition exactSeconds : Settings :=
  {| roundToNearestMinute := false; returnTimeForNoEventCase := false |}.

Definition wholeMinutes : Settings :=
  {| roundToNearestMinute := true; returnTimeForNoEventCase := false |}.

Definition fallbackTimes : Settings :=
  {| roundToNearestMinute := false; returnTimeForNoEventCase := true |}.

(** 2020-03-20T00:00:00Z *)
Definition equinox : DateTime :=
  {| ts := 1584662400000; zone := UTC; errorCode := None |}.

(** 2020-06-21T00:00:00Z *)
Definition solstice : DateTime :=
  {| ts := 1592697600000; zone := UTC; errorCode := None |}.

(** 2020-01-15T00:00:00Z *)
Definition midJanuary : DateTime :=
  {| ts := 1579046400000; zone := UTC; errorCode := None |}.

(** Whether the instant [t] is in [[from, to)]. *)
Definition between (from to t : Z) : bool := ((from <=? t) && (t <? to))%Z.

(** Australia/Sydney, as it is from October 2019 to April 2021: standard time
    (+10:00) from 2020-04-04T16:00Z to 2020-10-03T16:00Z, summer time
    (+11:00) before and after. *)
Definition sydney : Zone :=
  {| zoneName := "Australia/Sydney";
     zoneOffset := fun t => if between 1586016000000 1601740800000 t then 600%Z else 660%Z;
     zoneInDST := fun t => negb (between 1586016000000 1601740800000 t) |}.

(** 2020-06-21T00:00:00+10:00, the local midnight of Sydney. *)
Definition solsticeSydney : DateTime :=
  {| ts := 1592661600000; zone := sydney; errorCode := None |}.

(** Europe/Oslo, as it is from November 2019 to March 2021: summer time
    (+02:00) from 2020-03-29T01:00Z to 2020-10-25T01:00Z, standard time
    (+01:00) before and after. *)
Definition oslo : Zone :=
  {| zoneName := "Europe/Oslo";
     zoneOffset := fun t => if between 1585443600000 1603587600000 t then 120%Z else 60%Z;
     zoneInDST := between 1585443600000 1603587600000 |}.

(** 2020-06-21T03:30:00+02:00 *)
Definition solsticeOslo : DateTime :=
  {| ts := 1592703000000; zone := oslo; errorCode := None |}.

(** 2020-03-29T00:00:00+01:00: the local midnight of the day the clocks of
    Oslo go from 02:00 to 03:00. *)
Definition springForwardOslo : DateTime :=
  {| ts := 1585436400000; zone := oslo; errorCode := None |}.

(** 2020-06-21T18:45:00+10:00: the evening of the same day in Sydney, on a
    date that carries a code. *)
Definition solsticeSydneyEvening : DateTime :=
  {| ts := 1592729100000; zone := sydney; errorCode := Some "SUN_LOW"%string |}.

(** 2020-03-20T09:30:00.250Z *)
Definition equinoxMorning : DateTime :=
  {| ts := 1584696600250; zone := UTC; errorCode := None |}.

(** The table of the nutation with a 64th row. *)
Definition nutationsAndOneMore : list (list float) :=
  nutations ++ [[1; 2; 3; 4; 5; 6; 7; 8; 9]].

End Reference.

(** * Facts *)

(** ** The order of Numbers

    [<] and [<=] on Numbers are the comparisons of IEEE 754; what the proofs
    below need of them follows from their specification. *)

Lemma SFcompare_swap (f1 f2 : spec_float) :
  SFcompare f2 f1 = option_map CompOpp (SFcompare f1 f2).
Proof.
  destruct f1 as [s1|s1| |s1 m1 e1], f2 as [s2|s2| |s2 m2 e2]; simpl;
    try destruct s1; try destruct s2; simpl; try reflexivity.
  all: change (Pos.compare_cont Eq) with Pos.compare.
  all: rewrite (Z.compare_antisym e2 e1), (Pos.compare_antisym m2 m1).
  all: destruct (e2 ?= e1)%Z; simpl; try reflexivity.
  all: destruct (m2 ?= m1)%positive; reflexivity.
Qed.

Lemma SFcompare_Lt_trans (f1 f2 f3 : spec_float) :
  SFcompare f1 f2 = Some Lt -> SFcompare f2 f3 = Some Lt -> SFcompare f1 f3 = Some Lt.
Proof.
  destruct f1 as [s1|s1| |s1 m1 e1], f2 as [s2|s2| |s2 m2 e2], f3 as [s3|s3| |s3 m3 e3];
    simpl; try destruct s1; try destruct s2; try destruct s3; simpl; try congruence.
  all: change (Pos.compare_cont Eq) with Pos.compare.
  all: destruct (Z.compare_spec e1 e2), (Z.compare_spec e2 e3); try congruence;
    destruct (Z.compare_spec e1 e3); try congruence; try lia; subst.
  all: destruct (Pos.compare_spec m1 m2), (Pos.compare_spec m2 m3); simpl; try congruence;
    destruct (Pos.compare_spec m1 m3); simpl; try congruence; try lia.
Qed.

Lemma leb_not_ltb (x y : float) : (x <=? y) = true -> (y <? x) = false.
Proof.
  rewrite FloatAxioms.ltb_spec, FloatAxioms.leb_spec. unfold SFltb, SFleb.
  rewrite (SFcompare_swap (Prim2SF x) (Prim2SF y)).
  destruct (SFcompare (Prim2SF x) (Prim2SF y)) as [[ | | ]|]; simpl; congruence.
Qed.

Lemma ltb_trans (x y z : float) : (x <? y) = true -> (y <? z) = true -> (x <? z) = true.
Proof.
  rewrite !FloatAxioms.ltb_spec. unfold SFltb.
  destruct (SFcompare (Prim2SF x) (Prim2SF y)) as [[ | | ]|] eqn:E1; try discriminate.
  destruct (SFcompare (Prim2SF y) (Prim2SF z)) as [[ | | ]|] eqn:E2; try discriminate.
  now rewrite (SFcompare_Lt_trans _ _ _ E1 E2).
Qed.

(** NaN, the one Number not equal to itself, is on neither side of any
    other. *)
Lemma nan_not_ltb (x y : float) :
  (x =? x) = false -> (x <? y) = false /\ (y <? x) = false.
Proof.
  rewrite FloatAxioms.eqb_spec, !FloatAxioms.ltb_spec. unfold SFeqb, SFltb.
  destruct (Prim2SF x) as [s|s| |s m e]; simpl.
  - discriminate.
  - destruct s; discriminate.
  - intros _. now destruct (Prim2SF y).
  - change (Pos.compare_cont Eq) with Pos.compare.
    rewrite Z.compare_refl, Pos.compare_refl. destruct s; discriminate.
Qed.

(** Two Numbers that a closed comparison tells apart are different. *)
Lemma float_neq (x y : float) : (x =? y) = false -> (x =? x) = true -> x <> y.
Proof. intros Hxy Hxx ->. congruence. Qed.

Lemma SFcompare_Eq_cong (f1 f2 f3 : spec_float) :
  SFcompare f1 f2 = Some Eq -> SFcompare f1 f3 = SFcompare f2 f3.
Proof.
  destruct f1 as [s1|s1| |s1 m1 e1], f2 as [s2|s2| |s2 m2 e2]; simpl;
    try destruct s1; try destruct s2; simpl; try discriminate;
    try (intros _; destruct f3 as [s3|[|]| |s3 m3 e3]; reflexivity).
  all: change (Pos.compare_cont Eq) with Pos.compare.
  all: destruct (Z.compare_spec e1 e2); try discriminate.
  all: destruct (Pos.compare_spec m1 m2); simpl; try discriminate.
  all: intros _; subst; reflexivity.
Qed.

(** A Number equal to [c] compares with [d] as [c] does. *)
Lemma eqb_cong (x c d : float) : (x =? c) = true -> (x =? d) = (c =? d).
Proof.
  rewrite !FloatAxioms.eqb_spec. unfold SFeqb.
  destruct (SFcompare (Prim2SF x) (Prim2SF c)) as [[ | | ]|] eqn:E; try discriminate.
  intros _. now rewrite (SFcompare_Eq_cong _ _ (Prim2SF d) E).
Qed.

(** A Number equal to [c] is below and above what [c] is. *)
Lemma ltb_cong (x c d : float) :
  (x =? c) = true -> (x <? d) = (c <? d) /\ (d <? x) = (d <? c).
Proof.
  rewrite FloatAxioms.eqb_spec, !FloatAxioms.ltb_spec. unfold SFeqb, SFltb.
  destruct (SFcompare (Prim2SF x) (Prim2SF c)) as [[ | | ]|] eqn:E; try discriminate.
  intros _. rewrite (SFcompare_swap (Prim2SF x) (Prim2SF d)),
    (SFcompare_swap (Prim2SF c) (Prim2SF d)).
  now rewrite (SFcompare_Eq_cong _ _ (Prim2SF d) E).
Qed.

(** ** [normalizeM] *)

(** C6, as the code has it: [normalizeM] adds one whole day when
    [m + utcOffset / 1440] is below 0, takes one whole day off when it is
    strictly above 1, and returns [m] unchanged when it lies in [0, 1], the
    value 1 included (and when it is NaN). *)
Theorem normalizeM_cases (m utcOffset : float) :
  let localM := m + utcOffset / 1440 in
  ((localM <? 0) = true -> SunTimes.normalizeM m utcOffset = m + 1) /\
  ((localM >? 1) = true -> SunTimes.normalizeM m utcOffset = m - 1) /\
  ((0 <=? localM) = true -> (localM <=? 1) = true -> SunTimes.normalizeM m utcOffset = m) /\
  ((localM =? localM) = false -> SunTimes.normalizeM m utcOffset = m).
Proof.
  intros localM. unfold SunTimes.normalizeM. fold localM.
  split; [|split; [|split]].
  - intros ->. reflexivity.
  - intros Hhi.
    assert ((localM <? 0) = false) as ->.
    { destruct (localM <? 0) eqn:Hlo; [|reflexivity].
      pose proof (ltb_trans _ _ _ Hhi Hlo) as Hc. vm_compute in Hc. discriminate. }
    now rewrite Hhi.
  - intros Hlo Hhi. now rewrite (leb_not_ltb _ _ Hlo), (leb_not_ltb _ _ Hhi).
  - intros Hnan. destruct (nan_not_ltb localM 0 Hnan) as [-> _].
    now destruct (nan_not_ltb localM 1 Hnan) as [_ ->].
Qed.

(** The claim C6 says a whole day is taken off as soon as
    [m + utcOffset / 1440 >= 1]; at exactly 1 the code returns [m]. *)
Lemma normalizeM_keeps_one :
  (1 + 0 / 1440 >=? 1) = true /\
  SunTimes.normalizeM 1 0 = 1 /\
  SunTimes.normalizeM 1 0 <> 1 - 1.
Proof.
  split; [reflexivity|]. split; [reflexivity|].
  apply float_neq; reflexivity.
Qed.

(** ** The wall clock of Luxon *)

Section WallClock.

Open Scope Z_scope.

(** The instant [fixOffset] finds is the wall clock read with some offset. *)
Lemma fixOffset_shift (localTS o : Z) (tz : Zone) :
  exists k, fixOffset localTS o tz = localTS - 60000 * k.
Proof.
  unfold fixOffset.
  destruct (o =? zoneOffset tz (localTS - o * 60000)); [exists o; lia|].
  match goal with
  | |- context [if ?test then _ else _] => destruct test
  end; eexists; [|rewrite Z.mul_comm; reflexivity].
  instantiate (1 := zoneOffset tz (localTS - o * 60000)). lia.
Qed.

(** It shows that wall clock when the zone, asked at the wall clock read
    with the guess, gives an offset that it confirms. *)
Lemma fixOffset_found (localTS o : Z) (tz : Zone) :
  let o2 := zoneOffset tz (localTS - 60000 * o) in
  zoneOffset tz (localTS - 60000 * o2) = o2 ->
  fixOffset localTS o tz + 60000 * zoneOffset tz (fixOffset localTS o tz) = localTS.
Proof.
  intros o2 Hconfirmed. unfold fixOffset.
  replace (localTS - o * 60000) with (localTS - 60000 * o) by lia. fold o2.
  destruct (Z.eqb_spec o o2) as [Hguess | Hguess].
  - fold o2. lia.
  - replace (localTS - 60000 * o - (o2 - o) * 60000) with (localTS - 60000 * o2) by lia.
    rewrite Hconfirmed, Z.eqb_refl, Hconfirmed. lia.
Qed.

Lemma fromLocal_clock (localTS o : Z) (tz : Zone) :
  exists k, localMillis (fromLocal localTS o tz) = localTS + 60000 * k.
Proof.
  unfold localMillis, Luxon.offset, fromLocal. cbn [ts zone].
  destruct (fixOffset_shift localTS o tz) as [k Hk]. rewrite Hk.
  exists (zoneOffset tz (localTS - 60000 * k) - k). lia.
Qed.

(** [d.set({ hour, minute, second: 0 })] shows the wall clock asked for
    when the zone has it and the two guesses find it. *)
Lemma set_hms_clock (date : DateTime) (hour minute : Z) :
  clockFound date hour minute ->
  localMillis (set_hms date hour minute 0) = wantedClock date hour minute.
Proof.
  unfold clockFound, wantedClock, set_hms, localMillis at 1, Luxon.offset at 1, fromLocal.
  cbv zeta. cbn [ts zone]. intros Hfound.
  set (local := localMillis date) in *.
  replace (local - local mod 86400000 + 3600000 * hour + 60000 * minute + 1000 * 0
           + local mod 1000)
    with (local - local mod 86400000 + 3600000 * hour + 60000 * minute + local mod 1000)
    by lia.
  now apply fixOffset_found.
Qed.

(** Then the date reads the hour and the minute asked for, on the same
    day. *)
Lemma set_hms_reads (date : DateTime) (hour minute : Z) :
  clockFound date hour minute ->
  0 <= hour < 24 -> 0 <= minute < 60 ->
  localMillis (set_hms date hour minute 0) / 86400000 = localMillis date / 86400000 /\
  localMillis (set_hms date hour minute 0) mod 86400000 =
    3600000 * hour + 60000 * minute + localMillis date mod 1000.
Proof.
  intros Hfound Hhour Hminute. rewrite (set_hms_clock date hour minute Hfound).
  unfold wantedClock. cbv zeta. generalize (localMillis date). intros local.
  split; Z.div_mod_to_equations; lia.
Qed.

End WallClock.

Section SunTimesFacts.

Context {math : Math.Lib} {aux : auxMath.Ops} {tables : constants.Tables}
  {conversions : timeConversions.Ops}.

(** ** The domain check of [approxLocalHourAngle] *)

Lemma approxLocalHourAngle_high (phi delta offset : float) :
  SunTimes.approxLocalHourAngle phi delta offset = Throw SunTimes.noEventCodes.SUN_HIGH <->
  (SunTimes.cosH0 phi delta offset <? -1) = true.
Proof.
  unfold SunTimes.approxLocalHourAngle.
  destruct (SunTimes.cosH0 phi delta offset <? -1); [tauto|].
  destruct (SunTimes.cosH0 phi delta offset >? 1); split; discriminate.
Qed.

Lemma approxLocalHourAngle_low (phi delta offset : float) :
  SunTimes.approxLocalHourAngle phi delta offset = Throw SunTimes.noEventCodes.SUN_LOW <->
  (SunTimes.cosH0 phi delta offset >? 1) = true.
Proof.
  unfold SunTimes.approxLocalHourAngle.
  destruct (SunTimes.cosH0 phi delta offset <? -1) eqn:Hlo.
  - split; [discriminate|]. intros Hhi.
    pose proof (ltb_trans _ _ _ Hhi Hlo) as Hc. vm_compute in Hc. discriminate.
  - destruct (SunTimes.cosH0 phi delta offset >? 1); [tauto|]. split; discriminate.
Qed.

Lemma approxLocalHourAngle_inside (phi delta offset : float) :
  (-1 <=? SunTimes.cosH0 phi delta offset) = true ->
  (SunTimes.cosH0 phi delta offset <=? 1) = true ->
  SunTimes.approxLocalHourAngle phi delta offset =
  Normal (auxMath.rad2deg (Math.acos (SunTimes.cosH0 phi delta offset))).
Proof.
  intros Hlo Hhi. unfold SunTimes.approxLocalHourAngle.
  now rewrite (leb_not_ltb _ _ Hlo), (leb_not_ltb _ _ Hhi).
Qed.

(** What [approxLocalHourAngle] throws is one of the two codes. *)
Lemma approxLocalHourAngle_throws (phi delta offset : float) (code : string) :
  SunTimes.approxLocalHourAngle phi delta offset = Throw code ->
  code = SunTimes.noEventCodes.SUN_HIGH \/ code = SunTimes.noEventCodes.SUN_LOW.
Proof.
  unfold SunTimes.approxLocalHourAngle.
  destruct (SunTimes.cosH0 phi delta offset <? -1); [intros [= <-]; now left|].
  destruct (SunTimes.cosH0 phi delta offset >? 1); [intros [= <-]; now right|discriminate].
Qed.

Lemma sunRiseSetRun_throw (st : Settings) (datetime : DateTime) (phi L : float)
    (flag : string) (offset : float) (code : string) :
  SunTimes.approxLocalHourAngle phi (SunTimes.declinationAt0hTD datetime) offset = Throw code ->
  SunTimes.sunRiseSetRun st datetime phi L flag offset =
  {| SunTimes.returned := Throw code; SunTimes.fraction := None; SunTimes.corrections := 0 |}.
Proof.
  unfold SunTimes.sunRiseSetRun, SunTimes.declinationAt0hTD. cbv zeta. now intros ->.
Qed.

(** C2: the domain check raises SUN_HIGH exactly when the argument of the arc
    cosine is below -1 and SUN_LOW exactly when it is above 1; a call of
    [sunRiseSet] whose check raises ends there, before any round of the
    correction loop; and with the argument in [-1, 1] the function returns its
    arc cosine in degrees, which is in [0, 180] as [Math.acos] ends in
    [0, PI] and [rad2deg] takes [0, PI] into [0, 180]. *)
Theorem approxLocalHourAngle_domain_check (phi delta offset : float) :
  let arg := SunTimes.cosH0 phi delta offset in
  (SunTimes.approxLocalHourAngle phi delta offset = Throw SunTimes.noEventCodes.SUN_HIGH <->
   (arg <? -1) = true) /\
  (SunTimes.approxLocalHourAngle phi delta offset = Throw SunTimes.noEventCodes.SUN_LOW <->
   (arg >? 1) = true) /\
  (forall st datetime L flag code,
     SunTimes.approxLocalHourAngle phi (SunTimes.declinationAt0hTD datetime) offset = Throw code ->
     SunTimes.sunRiseSet st datetime phi L flag offset = Throw code /\
     SunTimes.corrections (SunTimes.sunRiseSetRun st datetime phi L flag offset) = 0%nat) /\
  ((-1 <=? arg) = true -> (arg <=? 1) = true ->
   SunTimes.approxLocalHourAngle phi delta offset = Normal (auxMath.rad2deg (Math.acos arg)) /\
   (SunTimes.acos_in_range -> SunTimes.rad2deg_half_turn ->
    (0 <=? auxMath.rad2deg (Math.acos arg)) = true /\
    (auxMath.rad2deg (Math.acos arg) <=? 180) = true)).
Proof.
  intros arg. split; [apply approxLocalHourAngle_high|].
  split; [apply approxLocalHourAngle_low|]. split.
  - intros st datetime L flag code Hthrow. unfold SunTimes.sunRiseSet.
    now rewrite (sunRiseSetRun_throw st datetime phi L flag offset code Hthrow).
  - intros Hlo Hhi. split; [now apply approxLocalHourAngle_inside|].
    intros Hacos Hdeg. destruct (Hacos arg Hlo Hhi) as [Hzero Hpi].
    exact (Hdeg (Math.acos arg) Hzero Hpi).
Qed.

(** ** The correction loop *)

Lemma riseSetLoop_small (fuel : nat) (T Theta0 DeltaT phi L offset : float)
    (s : SunTimes.loopState) :
  (Math.abs (SunTimes.loop_DeltaM s) <=? 0.0001) = true ->
  SunTimes.riseSetLoop fuel T Theta0 DeltaT phi L offset s = s.
Proof.
  intros Hsmall. destruct fuel as [|fuel]; [reflexivity|]. simpl.
  now rewrite (leb_not_ltb _ _ Hsmall).
Qed.

Lemma riseSetLoop_counter (fuel : nat) (T Theta0 DeltaT phi L offset : float) :
  forall s : SunTimes.loopState,
    (SunTimes.loop_counter s <= 3)%nat ->
    (SunTimes.loop_counter (SunTimes.riseSetLoop fuel T Theta0 DeltaT phi L offset s) <= 3)%nat.
Proof.
  induction fuel as [|fuel IH]; intros s Hs; simpl; [exact Hs|].
  destruct (Math.abs (SunTimes.loop_DeltaM s) >? 0.0001); simpl; [|exact Hs].
  destruct (Nat.ltb_spec (SunTimes.loop_counter s) 3); [|exact Hs].
  apply IH. simpl. lia.
Qed.

(** Once the fuel covers the rounds that [counter < 3] leaves, more fuel
    changes nothing: the loop ends by its own test. *)
Lemma riseSetLoop_fuel (extra : nat) (T Theta0 DeltaT phi L offset : float) :
  forall (fuel : nat) (s : SunTimes.loopState),
    (3 - SunTimes.loop_counter s <= fuel)%nat ->
    SunTimes.riseSetLoop (fuel + extra) T Theta0 DeltaT phi L offset s =
    SunTimes.riseSetLoop fuel T Theta0 DeltaT phi L offset s.
Proof.
  induction fuel as [|fuel IH]; intros s Hs.
  - destruct extra as [|extra]; [reflexivity|]. simpl.
    destruct (Nat.ltb_spec (SunTimes.loop_counter s) 3); [lia|].
    now rewrite andb_false_r.
  - simpl.
    destruct (Math.abs (SunTimes.loop_DeltaM s) >? 0.0001); simpl; [|reflexivity].
    destruct (Nat.ltb_spec (SunTimes.loop_counter s) 3); [|reflexivity].
    apply IH. cbn [SunTimes.loop_counter]. lia.
Qed.

(** The loop written out: the first round always runs, each further round
    runs only after a correction above 0.0001, and there is no fourth. *)
Lemma riseSetIterate_rounds (T Theta0 DeltaT phi L offset m : float) :
  SunTimes.riseSetIterate T Theta0 DeltaT phi L offset m =
  let DeltaM1 := SunTimes.sunRiseSetCorrection T Theta0 DeltaT phi L m offset in
  let m1 := m + DeltaM1 in
  if Math.abs DeltaM1 >? 0.0001 then
    let DeltaM2 := SunTimes.sunRiseSetCorrection T Theta0 DeltaT phi L m1 offset in
    let m2 := m1 + DeltaM2 in
    if Math.abs DeltaM2 >? 0.0001 then
      let DeltaM3 := SunTimes.sunRiseSetCorrection T Theta0 DeltaT phi L m2 offset in
      {| SunTimes.loop_m := m2 + DeltaM3; SunTimes.loop_DeltaM := DeltaM3;
         SunTimes.loop_counter := 3 |}
    else
      {| SunTimes.loop_m := m2; SunTimes.loop_DeltaM := DeltaM2; SunTimes.loop_counter := 2 |}
  else
    {| SunTimes.loop_m := m1; SunTimes.loop_DeltaM := DeltaM1; SunTimes.loop_counter := 1 |}.
Proof.
  unfold SunTimes.riseSetIterate. cbv zeta.
  cbn [SunTimes.riseSetLoop SunTimes.loop_DeltaM SunTimes.loop_counter SunTimes.loop_m].
  change (Math.abs 1 >? 0.0001) with true. cbn [andb Nat.ltb Nat.leb].
  rewrite !andb_true_r. reflexivity.
Qed.

Lemma sunRiseSetRun_corrections (st : Settings) (datetime : DateTime) (phi L : float)
    (flag : string) (offset : float) :
  (SunTimes.corrections (SunTimes.sunRiseSetRun st datetime phi L flag offset) <= 3)%nat.
Proof.
  unfold SunTimes.sunRiseSetRun. cbv zeta.
  destruct (SunTimes.approxLocalHourAngle _ _ _) as [H0|code|message]; [|simpl; lia..].
  destruct (SunTimes.startFraction _ _ _) as [m|]; [|simpl; lia].
  cbn [SunTimes.corrections]. unfold SunTimes.riseSetIterate.
  apply riseSetLoop_counter. simpl. lia.
Qed.

(** C3: a call of [sunRiseSet] runs the body of its correction loop at most 3
    times; the loop stops as soon as a correction is at most 0.0001 in
    magnitude (written out: one round, a second only after a first correction
    above 0.0001, a third only after a second one above it, never a fourth),
    and it ends by its own test, whatever bound the recursion is given;
    [sunTransit] applies one correction, [-H / 360], and has no loop. *)
Theorem correction_rounds_bounded (st : Settings) (datetime : DateTime)
    (phi L : float) (flag : string) (offset T Theta0 DeltaT m : float) :
  (SunTimes.corrections (SunTimes.sunRiseSetRun st datetime phi L flag offset) <= 3)%nat /\
  SunTimes.riseSetIterate T Theta0 DeltaT phi L offset m =
    (let DeltaM1 := SunTimes.sunRiseSetCorrection T Theta0 DeltaT phi L m offset in
     let m1 := m + DeltaM1 in
     if Math.abs DeltaM1 >? 0.0001 then
       let DeltaM2 := SunTimes.sunRiseSetCorrection T Theta0 DeltaT phi L m1 offset in
       let m2 := m1 + DeltaM2 in
       if Math.abs DeltaM2 >? 0.0001 then
         let DeltaM3 := SunTimes.sunRiseSetCorrection T Theta0 DeltaT phi L m2 offset in
         {| SunTimes.loop_m := m2 + DeltaM3; SunTimes.loop_DeltaM := DeltaM3;
            SunTimes.loop_counter := 3 |}
       else
         {| SunTimes.loop_m := m2; SunTimes.loop_DeltaM := DeltaM2;
            SunTimes.loop_counter := 2 |}
     else
       {| SunTimes.loop_m := m1; SunTimes.loop_DeltaM := DeltaM1;
          SunTimes.loop_counter := 1 |}) /\
  (forall fuel s,
     (Math.abs (SunTimes.loop_DeltaM s) <=? 0.0001) = true ->
     SunTimes.riseSetLoop fuel T Theta0 DeltaT phi L offset s = s) /\
  (forall extra,
     SunTimes.riseSetLoop (3 + extra) T Theta0 DeltaT phi L offset
       {| SunTimes.loop_m := m; SunTimes.loop_DeltaM := 1; SunTimes.loop_counter := 0 |} =
     SunTimes.riseSetIterate T Theta0 DeltaT phi L offset m) /\
  SunTimes.sunTransit st datetime L =
    (let transit := SunTimes.utcMidnight datetime in
     let DeltaT := timeConversions.DeltaT transit in
     let T := timeConversions.datetimeToT transit in
     let Theta0 := SunTimes.apparentSiderealTimeGreenwich T in
     let TD := T - (DeltaT / (3600 * 24 * 36525)) in
     let m := SunTimes.normalizeM
                ((SunTimes.sunApparentRightAscension TD - L - Theta0) / 360)
                (Z2F (Luxon.offset datetime)) in
     SunTimes.localizeTransit st transit
       (m + SunTimes.sunTransitCorrection T Theta0 DeltaT L m) (zone datetime)) /\
  SunTimes.sunTransitCorrection T Theta0 DeltaT L m =
    - SunTimes.localHourAngle (Theta0 + 360.985647 * m) L
        (SunTimes.interpolatedRa T (m + DeltaT / 864000)) / 360.
Proof.
  split; [apply sunRiseSetRun_corrections|].
  split; [apply riseSetIterate_rounds|].
  split; [intros fuel s; apply riseSetLoop_small|].
  split; [|split; reflexivity].
  intros extra. unfold SunTimes.riseSetIterate.
  apply (riseSetLoop_fuel extra). simpl. lia.
Qed.

(** ** An unrecognized flag *)

Lemma startFraction_unknown (flag : string) (m0 H0 : float) :
  flag <> "RISE"%string -> flag <> "SET"%string -> SunTimes.startFraction flag m0 H0 = None.
Proof.
  intros Hrise Hset. unfold SunTimes.startFraction.
  apply String.eqb_neq in Hrise, Hset. now rewrite Hrise, Hset.
Qed.

(** C8, as the code has it: with a flag other than 'RISE' and 'SET' the call
    runs no round of the correction loop and returns no instant; it returns
    [false] when the domain check passes, and when the domain check raises,
    which it does before the flag is looked at, the call throws that code. *)
Theorem sunRiseSet_unknown_flag (st : Settings) (datetime : DateTime) (phi L : float)
    (flag : string) (offset : float) :
  flag <> "RISE"%string -> flag <> "SET"%string ->
  let run := SunTimes.sunRiseSetRun st datetime phi L flag offset in
  let check := SunTimes.approxLocalHourAngle phi (SunTimes.declinationAt0hTD datetime) offset in
  SunTimes.corrections run = 0%nat /\
  SunTimes.fraction run = None /\
  (forall d, SunTimes.sunRiseSet st datetime phi L flag offset <> Normal (SunTimes.IsDate d)) /\
  (forall H0, check = Normal H0 ->
     SunTimes.sunRiseSet st datetime phi L flag offset = Normal SunTimes.IsFalse) /\
  (forall code, check = Throw code ->
     SunTimes.sunRiseSet st datetime phi L flag offset = Throw code /\
     (code = SunTimes.noEventCodes.SUN_HIGH \/ code = SunTimes.noEventCodes.SUN_LOW)).
Proof.
  intros Hrise Hset run check.
  assert (run = match check with
                | Throw code =>
                    {| SunTimes.returned := Throw code; SunTimes.fraction := None;
                       SunTimes.corrections := 0 |}
                | ThrowError message =>
                    {| SunTimes.returned := ThrowError message; SunTimes.fraction := None;
                       SunTimes.corrections := 0 |}
                | Normal _ =>
                    {| SunTimes.returned := Normal SunTimes.IsFalse; SunTimes.fraction := None;
                       SunTimes.corrections := 0 |}
                end) as Hrun.
  { subst run check. unfold SunTimes.sunRiseSetRun, SunTimes.declinationAt0hTD. cbv zeta.
    destruct (SunTimes.approxLocalHourAngle _ _ _) as [H0|code|message]; [|reflexivity..].
    now rewrite (startFraction_unknown flag _ H0 Hrise Hset). }
  unfold SunTimes.sunRiseSet. fold run. rewrite Hrun.
  pose proof (approxLocalHourAngle_throws phi (SunTimes.declinationAt0hTD datetime) offset) as Hcodes.
  fold check in Hcodes.
  destruct check as [H0|code|message];
    cbn [SunTimes.returned SunTimes.fraction SunTimes.corrections];
    repeat split; try discriminate; try congruence.
  all: match goal with Hc : Throw _ = Throw _ |- _ => injection Hc as <- end.
  all: now apply Hcodes.
Qed.

(** ** [handleNoEventCase] *)

(** C7: for a no-event classification, SUN_HIGH or SUN_LOW, with
    [returnTimeForNoEventCase] set the function returns the date put at the
    given hour and minute, second 0, moved on by 60 minutes exactly when the
    date is in daylight-saving time, and carrying the classification as its
    [errorCode]; with the setting cleared it returns the classification.
    The date put at the hour and the minute is the one Luxon's [set] finds:
    it reads that hour and minute, on the day and with the millisecond of
    the date passed, whenever the zone has that wall clock. *)
Theorem handleNoEventCase_observable (st : Settings) (date : DateTime) (code : string)
    (hour minute : Z) :
  code = SunTimes.noEventCodes.SUN_HIGH \/ code = SunTimes.noEventCodes.SUN_LOW ->
  (returnTimeForNoEventCase st = true ->
   exists d,
     SunTimes.handleNoEventCase st date (Some code) hour minute = SunTimes.NoEventDate d /\
     errorCode d = Some code /\
     zone d = zone date /\
     ts d = (ts (set_hms date hour minute 0)
             + (if isInDST date then 60 * 60000 else 0))%Z /\
     (clockFound date hour minute ->
      (0 <= hour < 24)%Z -> (0 <= minute < 60)%Z ->
      (localMillis (set_hms date hour minute 0) / 86400000
       = localMillis date / 86400000)%Z /\
      (localMillis (set_hms date hour minute 0) mod 86400000
       = 3600000 * hour + 60000 * minute + localMillis date mod 1000)%Z)) /\
  (returnTimeForNoEventCase st = false ->
   SunTimes.handleNoEventCase st date (Some code) hour minute =
   SunTimes.NoEventCode (Some code)).
Proof.
  intros Hcode. unfold SunTimes.handleNoEventCase. split; intros ->; [|reflexivity].
  assert (SunTimes.truthy (Some code) = true) as ->
    by (destruct Hcode as [-> | ->]; reflexivity).
  eexists. split; [reflexivity|]. cbn [errorCode zone ts].
  split; [reflexivity|]. split; [reflexivity|]. split.
  - unfold plus_minutes, plus_millis. cbn [ts]. destruct (isInDST date); reflexivity.
  - apply set_hms_reads.
Qed.

(** ** Back to an instant *)

(** Inside the range of [Date], the count of seconds is added. *)
Lemma localizeTransit_plus (st : Settings) (transit : DateTime) (m : float) (timezone : Zone)
    (n : Z) :
  Math.floor (m * 3600 * 24 + 0.5) = Whole n ->
  inRange (ts transit + 1000 * n) = true ->
  SunTimes.localizeTransit st transit m timezone =
  Normal (Some (setZone (SunTimes.roundMinute st (plus_millis transit (1000 * n))) timezone)).
Proof. unfold SunTimes.localizeTransit, plus_seconds. now intros -> ->. Qed.

Lemma localizeRiseSet_positive (st : Settings) (suntime : DateTime) (m : float)
    (timezone : Zone) (n : Z) :
  (m >? 0) = true ->
  Math.floor (m * 3600 * 24 + 0.5) = Whole n ->
  inRange (ts suntime + 1000 * n) = true ->
  SunTimes.localizeRiseSet st suntime m timezone =
  Normal (Some (setZone (SunTimes.roundMinute st (plus_millis suntime (1000 * n))) timezone)).
Proof. unfold SunTimes.localizeRiseSet, plus_seconds. now intros -> -> ->. Qed.

(** The other branch takes the floored count off, whatever its sign. *)
Lemma localizeRiseSet_not_positive (st : Settings) (suntime : DateTime) (m : float)
    (timezone : Zone) (n : Z) :
  (m >? 0) = false ->
  Math.floor (m * 3600 * 24 + 0.5) = Whole n ->
  inRange (ts suntime - 1000 * n) = true ->
  SunTimes.localizeRiseSet st suntime m timezone =
  Normal
    (Some (setZone (SunTimes.roundMinute st (plus_millis suntime (- (1000 * n)))) timezone)).
Proof. unfold SunTimes.localizeRiseSet, minus_seconds. now intros -> -> ->. Qed.

(** ** The settings *)

Lemma roundMinute_setting (st1 st2 : Settings) (t : DateTime) :
  roundToNearestMinute st1 = roundToNearestMinute st2 ->
  SunTimes.roundMinute st1 t = SunTimes.roundMinute st2 t.
Proof. unfold SunTimes.roundMinute. now intros ->. Qed.

Lemma localizeRiseSet_setting (st1 st2 : Settings) (suntime : DateTime) (m : float)
    (timezone : Zone) :
  roundToNearestMinute st1 = roundToNearestMinute st2 ->
  SunTimes.localizeRiseSet st1 suntime m timezone =
  SunTimes.localizeRiseSet st2 suntime m timezone.
Proof.
  intros Hst. unfold SunTimes.localizeRiseSet.
  destruct (if m >? 0 then _ else _) as [[t|]|code|message]; try reflexivity.
  simpl. now rewrite (roundMinute_setting st1 st2 t Hst).
Qed.

Lemma localizeTransit_setting (st1 st2 : Settings) (transit : DateTime) (m : float)
    (timezone : Zone) :
  roundToNearestMinute st1 = roundToNearestMinute st2 ->
  SunTimes.localizeTransit st1 transit m timezone =
  SunTimes.localizeTransit st2 transit m timezone.
Proof.
  intros Hst. unfold SunTimes.localizeTransit.
  destruct (plus_seconds transit _) as [[t|]|code|message]; try reflexivity.
  simpl. now rewrite (roundMinute_setting st1 st2 t Hst).
Qed.

(** C9, as the code has it: [sunRiseSet] and [sunTransit] read the setting
    [roundToNearestMinute] that all calls share; two calls with the same
    arguments and the same conversions return the same result when that
    setting holds the same value at both, whatever [returnTimeForNoEventCase]
    holds.  [truePhase] takes no setting at all, and of the conversions it
    depends on [kToT] alone. *)
Theorem solver_reads_one_setting (st1 st2 : Settings) :
  roundToNearestMinute st1 = roundToNearestMinute st2 ->
  (forall datetime phi L flag offset,
     SunTimes.sunRiseSet st1 datetime phi L flag offset =
     SunTimes.sunRiseSet st2 datetime phi L flag offset) /\
  (forall datetime L,
     SunTimes.sunTransit st1 datetime L = SunTimes.sunTransit st2 datetime L) /\
  (forall (c1 c2 : timeConversions.Ops) k phase,
     (forall x, @timeConversions.kToT c1 x = @timeConversions.kToT c2 x) ->
     @MoonPhases.truePhase aux c1 k phase = @MoonPhases.truePhase aux c2 k phase).
Proof.
  intros Hst. split; [|split].
  - intros datetime phi L flag offset.
    unfold SunTimes.sunRiseSet, SunTimes.sunRiseSetRun. cbv zeta.
    destruct (SunTimes.approxLocalHourAngle _ _ _) as [H0|code|message]; [|reflexivity..].
    destruct (SunTimes.startFraction _ _ _) as [m|]; [|reflexivity].
    cbn [SunTimes.returned]. now rewrite (localizeRiseSet_setting st1 st2 _ _ _ Hst).
  - intros datetime L. unfold SunTimes.sunTransit. cbv zeta.
    now apply localizeTransit_setting.
  - intros c1 c2 k phase HkToT. unfold MoonPhases.truePhase. cbv zeta.
    now rewrite (HkToT (k + phase / 4)).
Qed.

(** ** Which angles are reduced *)

(** C5, as the code has it: [sunApparentDeclination] returns the arc sine in
    degrees as it is, with no reduction (so it is in [-90, 90], as
    [Math.asin] ends within a quarter turn and [rad2deg] takes that to
    [-90, 90]); the interpolation of the right ascension asks for the
    normalization of its samples and that of the declination does not (what
    [interpolateFromThree] does when asked to normalize plays no part in
    [interpolatedDec], and what it does when not asked none in
    [interpolatedRa]); but
    [interpolatedDec] does pass the interpolated declination through
    [reduceAngle], as [interpolatedRa] does with the right ascension, and
    what it returns is the declination of the correction step, in the
    altitude and in the divisor.  So a negative interpolated declination
    does not reach the correction step as it is: wherever [reduceAngle]
    takes it to an angle that is not negative, the step works with that
    angle. *)
Theorem declination_reduction (T n : float) :
  let epsilon := SunTimes.trueObliquityOfEcliptic T
                 + 0.00256 * auxMath.cosd (SunTimes.moonAscendingNodeLongitude T) in
  let sine := auxMath.sind epsilon * auxMath.sind (SunTimes.sunApparentLongitude T) in
  let delta := auxMath.interpolateFromThree
                 (SunTimes.sunApparentDeclination (T - (1 / 36525)))
                 (SunTimes.sunApparentDeclination T)
                 (SunTimes.sunApparentDeclination (T + (1 / 36525))) n false in
  SunTimes.sunApparentDeclination T = auxMath.rad2deg (Math.asin sine) /\
  (SunTimes.asin_in_range -> SunTimes.rad2deg_quarter_turns ->
   (-1 <=? sine) = true -> (sine <=? 1) = true ->
   (-90 <=? SunTimes.sunApparentDeclination T) = true /\
   (SunTimes.sunApparentDeclination T <=? 90) = true) /\
  SunTimes.interpolatedRa T n =
    auxMath.reduceAngle
      (auxMath.interpolateFromThree
         (SunTimes.sunApparentRightAscension (T - (1 / 36525)))
         (SunTimes.sunApparentRightAscension T)
         (SunTimes.sunApparentRightAscension (T + (1 / 36525))) n true) /\
  SunTimes.interpolatedDec T n = auxMath.reduceAngle delta /\
  (forall interpolate,
     (forall y1 y2 y3 x,
        interpolate y1 y2 y3 x true = auxMath.interpolateFromThree y1 y2 y3 x true) ->
     @SunTimes.interpolatedRa math (withInterpolation aux interpolate) tables T n =
     SunTimes.interpolatedRa T n) /\
  (forall interpolate,
     (forall y1 y2 y3 x,
        interpolate y1 y2 y3 x false = auxMath.interpolateFromThree y1 y2 y3 x false) ->
     @SunTimes.interpolatedDec math (withInterpolation aux interpolate) tables T n =
     SunTimes.interpolatedDec T n) /\
  (forall Theta0 DeltaT phi L m offset,
     let folded := SunTimes.interpolatedDec T (m + DeltaT / 864000) in
     let H := SunTimes.localHourAngle (Theta0 + 360.985647 * m) L
                (SunTimes.interpolatedRa T (m + DeltaT / 864000)) in
     SunTimes.sunRiseSetCorrection T Theta0 DeltaT phi L m offset =
     (SunTimes.altitude phi folded H + offset)
     / (360 * auxMath.cosd folded * auxMath.cosd phi * auxMath.sind H)) /\
  ((delta <? 0) = true -> (0 <=? auxMath.reduceAngle delta) = true ->
   (0 <=? SunTimes.interpolatedDec T n) = true /\
   SunTimes.interpolatedDec T n <> delta /\
   (SunTimes.interpolatedDec T n =? delta) = false).
Proof.
  intros epsilon sine delta. split; [reflexivity|]. split.
  - intros Hasin Hdeg Hlo Hhi. destruct (Hasin sine Hlo Hhi) as [Hlow Hhigh].
    exact (Hdeg (Math.asin sine) Hlow Hhigh).
  - split; [reflexivity|]. split; [reflexivity|].
    split; [intros interpolate Hsame; unfold SunTimes.interpolatedRa;
            cbn [withInterpolation auxMath.interpolateFromThree auxMath.reduceAngle];
            now rewrite Hsame|].
    split; [intros interpolate Hsame; unfold SunTimes.interpolatedDec;
            cbn [withInterpolation auxMath.interpolateFromThree auxMath.reduceAngle];
            now rewrite Hsame|].
    split; [reflexivity|].
    intros Hnegative Hreduced.
    change (SunTimes.interpolatedDec T n) with (auxMath.reduceAngle delta).
    split; [exact Hreduced|].
    assert ((auxMath.reduceAngle delta =? delta) = false) as Hdiffer.
    { destruct (auxMath.reduceAngle delta =? delta) eqn:Hsame; [|reflexivity].
      destruct (ltb_cong (auxMath.reduceAngle delta) delta 0 Hsame) as [Hbelow _].
      rewrite Hnegative in Hbelow. apply leb_not_ltb in Hreduced. congruence. }
    split; [|exact Hdiffer].
    intros Hsame. rewrite Hsame in Hreduced. apply leb_not_ltb in Hreduced. congruence.
Qed.

End SunTimesFacts.

(** ** The lunar phases *)

Section MoonPhasesFacts.

Context {aux : auxMath.Ops} {conversions : timeConversions.Ops}.

(** C4: for a phase selector 0, 1, 2 or 3, [truePhase] is the mean phase at
    [k + phase / 4] plus the sum of the series of that phase and of the common
    corrections of the 14 planetary arguments; the series of the quarters has
    the term [W] added for phase 1 and taken off for phase 3, and the series
    of new and full moon has no [W]. *)
Theorem truePhase_known_phase (k phase : float) :
  let k' := k + phase / 4 in
  let T := timeConversions.kToT k' in
  let E := MoonPhases.eccentricityCorrection T in
  let M := MoonPhases.sunMeanAnomaly T k' in
  let MPrime := MoonPhases.moonMeanAnomaly T k' in
  let F := MoonPhases.moonArgumentOfLatitude T k' in
  let Omega := MoonPhases.moonAscendingNodeLongitude T k' in
  let common := MoonPhases.commonCorrections (MoonPhases.planetaryArguments T k') in
  ((phase =? 0) = true ->
   MoonPhases.truePhase k phase =
   MoonPhases.meanPhase T k'
   + (0 + (MoonPhases.newMoonFullMoonShared E M MPrime F Omega
           + MoonPhases.newMoonTerms E M MPrime F) + common)) /\
  ((phase =? 1) = true ->
   MoonPhases.truePhase k phase =
   MoonPhases.meanPhase T k'
   + (0 + (MoonPhases.quarterTerms E M MPrime F Omega + MoonPhases.W E M MPrime F)
      + common)) /\
  ((phase =? 2) = true ->
   MoonPhases.truePhase k phase =
   MoonPhases.meanPhase T k'
   + (0 + (MoonPhases.newMoonFullMoonShared E M MPrime F Omega
           + MoonPhases.fullMoonTerms E M MPrime F) + common)) /\
  ((phase =? 3) = true ->
   MoonPhases.truePhase k phase =
   MoonPhases.meanPhase T k'
   + (0 + (MoonPhases.quarterTerms E M MPrime F Omega - MoonPhases.W E M MPrime F)
      + common)).
Proof.
  intros k' T E M MPrime F Omega common.
  unfold MoonPhases.truePhase, MoonPhases.newMoonFullMoonCorrections,
    MoonPhases.quarterCorrections. cbv zeta.
  fold k' T E M MPrime F Omega common.
  split; [|split; [|split]]; intros Hphase.
  - now rewrite Hphase.
  - rewrite (eqb_cong phase 1 0 Hphase), (eqb_cong phase 1 2 Hphase), Hphase. reflexivity.
  - rewrite (eqb_cong phase 2 0 Hphase), Hphase. reflexivity.
  - rewrite (eqb_cong phase 3 0 Hphase), (eqb_cong phase 3 2 Hphase),
      (eqb_cong phase 3 1 Hphase), Hphase. reflexivity.
Qed.

(** C10: for a phase that is none of 0, 1, 2 and 3, [truePhase] returns, as
    for any Number it does, and what it returns is the mean phase at
    [k + phase / 4] plus the common corrections alone: neither series of a
    phase is added. *)
Theorem truePhase_other_phase (k phase : float) :
  (phase =? 0) = false -> (phase =? 1) = false ->
  (phase =? 2) = false -> (phase =? 3) = false ->
  let k' := k + phase / 4 in
  let T := timeConversions.kToT k' in
  MoonPhases.truePhase k phase =
  MoonPhases.meanPhase T k'
  + (0 + MoonPhases.commonCorrections (MoonPhases.planetaryArguments T k')).
Proof.
  intros H0 H1 H2 H3 k' T. unfold MoonPhases.truePhase. cbv zeta.
  now rewrite H0, H1, H2, H3.
Qed.

End MoonPhasesFacts.

(** * Further facts on [src/sunTimes.js] *)

Section SunTimesOutcomes.

Context {math : Math.Lib} {aux : auxMath.Ops} {tables : constants.Tables}
  {conversions : timeConversions.Ops}.

Lemma sunRiseSetRun_normal (st : Settings) (datetime : DateTime) (phi L : float)
    (flag : string) (offset H0 : float) :
  SunTimes.approxLocalHourAngle phi (SunTimes.declinationAt0hTD datetime) offset = Normal H0 ->
  SunTimes.sunRiseSetRun st datetime phi L flag offset =
  let suntime := SunTimes.utcMidnight datetime in
  let DeltaT := timeConversions.DeltaT suntime in
  let T := timeConversions.datetimeToT suntime in
  let Theta0 := SunTimes.apparentSiderealTimeGreenwich T in
  let TD := T - (DeltaT / (3600 * 24 * 36525)) in
  let m0 := SunTimes.normalizeM ((SunTimes.sunApparentRightAscension TD - L - Theta0) / 360)
              (Z2F (Luxon.offset datetime)) in
  match SunTimes.startFraction flag m0 H0 with
  | None =>
      {| SunTimes.returned := Normal SunTimes.IsFalse; SunTimes.fraction := None;
         SunTimes.corrections := 0 |}
  | Some m =>
      let s := SunTimes.riseSetIterate T Theta0 DeltaT phi L offset m in
      {| SunTimes.returned :=
           andThen
             (SunTimes.localizeRiseSet st suntime (SunTimes.loop_m s) (zone datetime))
             SunTimes.IsDate;
         SunTimes.fraction := Some (SunTimes.loop_m s);
         SunTimes.corrections := SunTimes.loop_counter s |}
  end.
Proof.
  unfold SunTimes.sunRiseSetRun, SunTimes.declinationAt0hTD. cbv zeta. now intros ->.
Qed.

Lemma startFraction_known (flag : string) (m0 H0 : float) :
  flag = "RISE"%string \/ flag = "SET"%string ->
  exists m, SunTimes.startFraction flag m0 H0 = Some m.
Proof. intros [-> | ->]; eexists; reflexivity. Qed.

Lemma startFraction_some (flag : string) (m0 H0 m : float) :
  SunTimes.startFraction flag m0 H0 = Some m -> flag = "RISE"%string \/ flag = "SET"%string.
Proof.
  unfold SunTimes.startFraction.
  destruct (String.eqb_spec flag "RISE"); [now left|].
  destruct (String.eqb_spec flag "SET"); [now right|discriminate].
Qed.

(** The last step of [sunRiseSet] throws when the count of seconds is NaN,
    the [Error] of Luxon, and returns a [DateTime], valid or not, when it is
    not. *)
Lemma localizeRiseSet_outcome (st : Settings) (suntime : DateTime) (m : float)
    (timezone : Zone) :
  (Math.floor (m * 3600 * 24 + 0.5) = NotANumber ->
   SunTimes.localizeRiseSet st suntime m timezone = ThrowError invalidUnitValueNaN) /\
  (Math.floor (m * 3600 * 24 + 0.5) <> NotANumber ->
   exists d, SunTimes.localizeRiseSet st suntime m timezone = Normal d).
Proof.
  unfold SunTimes.localizeRiseSet, plus_seconds, minus_seconds.
  destruct (Math.floor (m * 3600 * 24 + 0.5)) as [n|negative|]; split;
    try discriminate; try congruence; intros _;
    destruct (m >? 0); simpl; try reflexivity; eexists; reflexivity.
Qed.

Lemma localizeTransit_outcome (st : Settings) (transit : DateTime) (m : float)
    (timezone : Zone) :
  (Math.floor (m * 3600 * 24 + 0.5) = NotANumber ->
   SunTimes.localizeTransit st transit m timezone = ThrowError invalidUnitValueNaN) /\
  (Math.floor (m * 3600 * 24 + 0.5) <> NotANumber ->
   exists d, SunTimes.localizeTransit st transit m timezone = Normal d).
Proof.
  unfold SunTimes.localizeTransit, plus_seconds.
  destruct (Math.floor (m * 3600 * 24 + 0.5)) as [n|negative|]; split;
    try discriminate; try congruence; intros _;
    simpl; try reflexivity; eexists; reflexivity.
Qed.

Lemma localizeRiseSet_cases (st : Settings) (suntime : DateTime) (m : float)
    (timezone : Zone) :
  SunTimes.localizeRiseSet st suntime m timezone = ThrowError invalidUnitValueNaN \/
  exists d, SunTimes.localizeRiseSet st suntime m timezone = Normal d.
Proof.
  destruct (localizeRiseSet_outcome st suntime m timezone) as [Hnan Hnumber].
  destruct (Math.floor (m * 3600 * 24 + 0.5)) as [n|negative|].
  - right. now apply Hnumber.
  - right. now apply Hnumber.
  - left. now apply Hnan.
Qed.

(** No code is thrown after the domain check. *)
Lemma localizeRiseSet_no_code (st : Settings) (suntime : DateTime) (m : float)
    (timezone : Zone) (code : string) :
  andThen (SunTimes.localizeRiseSet st suntime m timezone) SunTimes.IsDate <> Throw code.
Proof.
  destruct (localizeRiseSet_cases st suntime m timezone) as [-> | [d ->]]; discriminate.
Qed.

(** X1: whether a call of [sunRiseSet] throws one of the codes, and which, is
    decided by the domain check on the date, the latitude and the offset
    alone: the call throws a code exactly when [approxLocalHourAngle] does,
    so the flag, the longitude and the settings play no part (sunrise and
    sunset of a day fail together, with the same code). *)
Theorem sunRiseSet_throws_by_the_check_alone (st : Settings) (datetime : DateTime)
    (phi L : float) (flag : string) (offset : float) (code : string) :
  (SunTimes.sunRiseSet st datetime phi L flag offset = Throw code <->
   SunTimes.approxLocalHourAngle phi (SunTimes.declinationAt0hTD datetime) offset = Throw code)
  /\
  (forall st' L' flag',
     SunTimes.sunRiseSet st datetime phi L flag offset = Throw code <->
     SunTimes.sunRiseSet st' datetime phi L' flag' offset = Throw code).
Proof.
  assert (forall st0 L0 flag0,
    SunTimes.sunRiseSet st0 datetime phi L0 flag0 offset = Throw code <->
    SunTimes.approxLocalHourAngle phi (SunTimes.declinationAt0hTD datetime) offset
    = Throw code) as Hcheck.
  { intros st0 L0 flag0. unfold SunTimes.sunRiseSet. split.
    - destruct (SunTimes.approxLocalHourAngle phi (SunTimes.declinationAt0hTD datetime) offset)
        as [H0|code'|message] eqn:Happrox.
      + rewrite (sunRiseSetRun_normal st0 datetime phi L0 flag0 offset H0 Happrox). cbv zeta.
        destruct (SunTimes.startFraction _ _ _); [|discriminate].
        cbn [SunTimes.returned]. intros Hthrow.
        now apply localizeRiseSet_no_code in Hthrow.
      + rewrite (sunRiseSetRun_throw st0 datetime phi L0 flag0 offset code' Happrox).
        simpl. intros [= ->]. reflexivity.
      + unfold SunTimes.sunRiseSetRun. fold (SunTimes.declinationAt0hTD datetime).
        cbv zeta. rewrite Happrox. discriminate.
    - intros Hthrow.
      rewrite (sunRiseSetRun_throw st0 datetime phi L0 flag0 offset code Hthrow). reflexivity. }
  split; [apply Hcheck|].
  intros st' L' flag'. now rewrite (Hcheck st L flag), (Hcheck st' L' flag').
Qed.

(** X2: of the ten entries of [noEventCodes], [sunRiseSet] throws SUN_HIGH or
    SUN_LOW and never one of the eight others. *)
Theorem sunRiseSet_throws_two_codes (st : Settings) (datetime : DateTime)
    (phi L : float) (flag : string) (offset : float) (code : string) :
  SunTimes.sunRiseSet st datetime phi L flag offset = Throw code ->
  (code = SunTimes.noEventCodes.SUN_HIGH \/ code = SunTimes.noEventCodes.SUN_LOW) /\
  code <> SunTimes.noEventCodes.MIDNIGHT_SUN /\
  code <> SunTimes.noEventCodes.POLAR_NIGHT /\
  code <> SunTimes.noEventCodes.NO_ASTRONOMICAL_DAWN /\
  code <> SunTimes.noEventCodes.NO_ASTRONOMICAL_DUSK /\
  code <> SunTimes.noEventCodes.NO_CIVIL_DAWN /\
  code <> SunTimes.noEventCodes.NO_CIVIL_DUSK /\
  code <> SunTimes.noEventCodes.NO_NAUTICAL_DAWN /\
  code <> SunTimes.noEventCodes.NO_NAUTICAL_DUSK.
Proof.
  intros Hthrow.
  assert (code = SunTimes.noEventCodes.SUN_HIGH \/ code = SunTimes.noEventCodes.SUN_LOW)
    as Hcode.
  { unfold SunTimes.sunRiseSet in Hthrow.
    destruct (SunTimes.approxLocalHourAngle phi (SunTimes.declinationAt0hTD datetime) offset)
      as [H0|code'|message] eqn:Happrox.
    - rewrite (sunRiseSetRun_normal st datetime phi L flag offset H0 Happrox) in Hthrow.
      cbv zeta in Hthrow. destruct (SunTimes.startFraction _ _ _); [|discriminate].
      cbn [SunTimes.returned] in Hthrow. now apply localizeRiseSet_no_code in Hthrow.
    - rewrite (sunRiseSetRun_throw st datetime phi L flag offset code' Happrox) in Hthrow.
      injection Hthrow as <-. exact (approxLocalHourAngle_throws _ _ _ _ Happrox).
    - unfold SunTimes.sunRiseSetRun in Hthrow.
      fold (SunTimes.declinationAt0hTD datetime) in Hthrow.
      cbv zeta in Hthrow. rewrite Happrox in Hthrow. discriminate. }
  split; [exact Hcode|].
  destruct Hcode as [-> | ->]; repeat split; discriminate.
Qed.

(** X3: when the domain check passes, the flag alone decides between [false]
    and the last step: the call returns [false] exactly for a flag other
    than 'RISE' and 'SET'; for 'RISE' or 'SET' it runs the loop (one to
    three rounds) and hands the fraction the loop ends with to the last
    step, so that it returns the [DateTime] Luxon builds from it, valid or
    not, unless the count of seconds is NaN: then [plus] or [minus] throws
    its [Error], and the call with it. *)
Theorem sunRiseSet_after_the_check (st : Settings) (datetime : DateTime)
    (phi L : float) (flag : string) (offset H0 : float) :
  SunTimes.approxLocalHourAngle phi (SunTimes.declinationAt0hTD datetime) offset = Normal H0 ->
  let run := SunTimes.sunRiseSetRun st datetime phi L flag offset in
  (SunTimes.returned run = Normal SunTimes.IsFalse <->
   flag <> "RISE"%string /\ flag <> "SET"%string) /\
  (flag = "RISE"%string \/ flag = "SET"%string ->
   exists m,
     SunTimes.fraction run = Some m /\
     SunTimes.returned run =
       andThen
         (SunTimes.localizeRiseSet st (SunTimes.utcMidnight datetime) m (zone datetime))
         SunTimes.IsDate /\
     (Math.floor (m * 3600 * 24 + 0.5) = NotANumber ->
      SunTimes.returned run = ThrowError invalidUnitValueNaN) /\
     (Math.floor (m * 3600 * 24 + 0.5) <> NotANumber ->
      exists d, SunTimes.returned run = Normal (SunTimes.IsDate d)) /\
     (1 <= SunTimes.corrections run <= 3)%nat).
Proof.
  intros Happrox run. subst run.
  rewrite (sunRiseSetRun_normal st datetime phi L flag offset H0 Happrox). cbv zeta.
  destruct (SunTimes.startFraction flag _ H0) as [m|] eqn:Hstart.
  - apply startFraction_some in Hstart as Hflag.
    cbn [SunTimes.returned SunTimes.fraction SunTimes.corrections].
    match goal with
    | |- context [SunTimes.localizeRiseSet st ?t ?m' ?z] =>
        destruct (localizeRiseSet_outcome st t m' z) as [Hnan Hnumber]
    end.
    split.
    + split; [|intros [Hrise Hset]; destruct Hflag; contradiction].
      match goal with
      | |- context [SunTimes.localizeRiseSet st ?t ?m' ?z] =>
          destruct (localizeRiseSet_cases st t m' z) as [-> | [d ->]]; discriminate
      end.
    + intros _. eexists. split; [reflexivity|]. split; [reflexivity|].
      split; [intros Hfloor; now rewrite (Hnan Hfloor)|].
      split; [intros Hfloor; destruct (Hnumber Hfloor) as [d ->]; now exists d|].
      rewrite riseSetIterate_rounds. cbv zeta.
      destruct (Math.abs _ >? 0.0001); [destruct (Math.abs _ >? 0.0001)|]; simpl; lia.
  - assert (forall known, known = "RISE"%string \/ known = "SET"%string -> flag <> known)
      as Hunknown.
    { intros known Hknown ->.
      match type of Hstart with
      | SunTimes.startFraction _ ?m0 _ = _ =>
          destruct (startFraction_known known m0 H0 Hknown) as [m Hm]
      end.
      congruence. }
    split.
    + split; [intros _|reflexivity].
      split; apply Hunknown; [now left|now right].
    + intros [-> | ->]; exfalso.
      * now apply (Hunknown "RISE"%string); [left|].
      * now apply (Hunknown "SET"%string); [right|].
Qed.

(** X4: how the correction loop ends: it runs one to three rounds; what it
    returns is the fraction of the round before plus the correction computed
    there, and that last correction is kept with it; and when the loop ends
    before the third round its last correction is not above 0.0001 in
    magnitude. *)
Theorem riseSetIterate_exit (T Theta0 DeltaT phi L offset m : float) :
  let s := SunTimes.riseSetIterate T Theta0 DeltaT phi L offset m in
  (1 <= SunTimes.loop_counter s <= 3)%nat /\
  (exists before,
     SunTimes.loop_DeltaM s = SunTimes.sunRiseSetCorrection T Theta0 DeltaT phi L before offset /\
     SunTimes.loop_m s = before + SunTimes.loop_DeltaM s) /\
  ((SunTimes.loop_counter s < 3)%nat ->
   (Math.abs (SunTimes.loop_DeltaM s) >? 0.0001) = false) /\
  (SunTimes.loop_counter s = 1%nat ->
   SunTimes.loop_m s = m + SunTimes.sunRiseSetCorrection T Theta0 DeltaT phi L m offset).
Proof.
  intros s. subst s. rewrite riseSetIterate_rounds. cbv zeta.
  destruct (Math.abs (SunTimes.sunRiseSetCorrection T Theta0 DeltaT phi L m offset) >? 0.0001)
    eqn:Hfirst.
  - cbv iota.
    match goal with
    | |- context [if ?test then _ else _] => destruct test eqn:Hsecond
    end; cbv iota; cbn [SunTimes.loop_counter SunTimes.loop_DeltaM SunTimes.loop_m].
    + split; [lia|]. split; [eexists; split; reflexivity|]. split; [lia|discriminate].
    + split; [lia|]. split; [eexists; split; reflexivity|].
      split; [intros _; exact Hsecond|discriminate].
  - cbv iota. cbn [SunTimes.loop_counter SunTimes.loop_DeltaM SunTimes.loop_m].
    split; [lia|]. split; [eexists; split; reflexivity|].
    split; [intros _; exact Hfirst|reflexivity].
Qed.

End SunTimesOutcomes.

(** ** The instants that come back *)

Section SunTimesInstants.

Context {math : Math.Lib} {aux : auxMath.Ops} {tables : constants.Tables}
  {conversions : timeConversions.Ops}.

Open Scope Z_scope.

Lemma some_eq {A : Type} (x y : A) : Some x = Some y -> x = y.
Proof. congruence. Qed.

Lemma utcMidnight_eq (datetime : DateTime) :
  SunTimes.utcMidnight datetime =
  {| ts := localMillis (set_hms datetime 0 0 0); zone := UTC; errorCode := None |}.
Proof.
  unfold SunTimes.utcMidnight, setZoneUTC_keepLocalTime, fromLocal, fixOffset.
  cbn [zoneOffset UTC]. change (0 =? 0) with true. cbv iota. f_equal. lia.
Qed.

(** The midnight the solvers start from is in UTC and keeps the millisecond
    of the wall clock of the date. *)
Lemma utcMidnight_ts (datetime : DateTime) :
  ts (SunTimes.utcMidnight datetime) mod 60000 = localMillis datetime mod 1000 /\
  zone (SunTimes.utcMidnight datetime) = UTC.
Proof.
  rewrite utcMidnight_eq. cbn [ts zone]. split; [|reflexivity].
  unfold set_hms. cbv zeta.
  match goal with
  | |- context [localMillis (fromLocal ?l ?o ?z)] =>
      destruct (fromLocal_clock l o z) as [k ->]
  end.
  Z.div_mod_to_equations. lia.
Qed.

(** The instant after the step of [roundToNearestMinute], for an instant
    shown in UTC. *)
Lemma roundMinute_ts (st : Settings) (t : DateTime) :
  zone t = UTC ->
  zone (SunTimes.roundMinute st t) = UTC /\
  ts (SunTimes.roundMinute st t) =
    if roundToNearestMinute st
    then ts t + 30000 - (ts t + 30000) mod 60000 + (ts t + 30000) mod 1000
    else ts t.
Proof.
  intros Hzone. unfold SunTimes.roundMinute.
  destruct (roundToNearestMinute st); [|now split].
  unfold set_second, plus_millis, fromLocal, fixOffset, localMillis, Luxon.offset.
  cbn [ts zone]. rewrite Hzone. cbn [zoneOffset UTC]. change (0 =? 0) with true. cbv iota.
  split; [reflexivity|].
  replace (ts t + 30000 + 60000 * 0) with (ts t + 30000) by lia. lia.
Qed.

(** A valid [DateTime] that [plus] or [minus] returns is the one it was
    called on, moved by a whole number of seconds. *)
Lemma plus_seconds_some (t : DateTime) (seconds : floored) (t' : DateTime) :
  plus_seconds t seconds = Normal (Some t') -> exists n, t' = plus_millis t (1000 * n).
Proof.
  unfold plus_seconds. destruct seconds as [n|negative|]; try discriminate.
  destruct (inRange _); [|discriminate]. intros Hsome. exists n. congruence.
Qed.

Lemma minus_seconds_some (t : DateTime) (seconds : floored) (t' : DateTime) :
  minus_seconds t seconds = Normal (Some t') -> exists n, t' = plus_millis t (1000 * n).
Proof.
  unfold minus_seconds. destruct seconds as [n|negative|]; try discriminate.
  destruct (inRange _); [|discriminate]. intros Hsome. exists (- n).
  replace (1000 * - n) with (- (1000 * n)) by lia. congruence.
Qed.

(** What both localizations have in common. *)
Lemma localize_result (st : Settings) (shifted : completion (option DateTime))
    (timezone : Zone) (d : DateTime) :
  andThen shifted (option_map (fun t' => setZone (SunTimes.roundMinute st t') timezone))
    = Normal (Some d) ->
  exists t', shifted = Normal (Some t') /\ d = setZone (SunTimes.roundMinute st t') timezone.
Proof.
  destruct shifted as [[t'|]|code|message]; simpl; try discriminate.
  intros Hsome. exists t'. split; [reflexivity|]. congruence.
Qed.

Lemma localizeTransit_result (st : Settings) (t : DateTime) (m : float) (timezone : Zone)
    (d : DateTime) :
  SunTimes.localizeTransit st t m timezone = Normal (Some d) ->
  exists t' n,
    plus_seconds t (Math.floor (m * 3600 * 24 + 0.5)%float) = Normal (Some t') /\
    t' = plus_millis t (1000 * n) /\
    d = setZone (SunTimes.roundMinute st t') timezone.
Proof.
  unfold SunTimes.localizeTransit. intros Hd.
  apply localize_result in Hd as (t' & Hshift & Hd).
  destruct (plus_seconds_some _ _ _ Hshift) as [n Hn]. now exists t', n.
Qed.

Lemma localizeRiseSet_result (st : Settings) (t : DateTime) (m : float) (timezone : Zone)
    (d : DateTime) :
  SunTimes.localizeRiseSet st t m timezone = Normal (Some d) ->
  exists t' n,
    (if (m >? 0)%float
     then plus_seconds t (Math.floor (m * 3600 * 24 + 0.5)%float)
     else minus_seconds t (Math.floor (m * 3600 * 24 + 0.5)%float)) = Normal (Some t') /\
    t' = plus_millis t (1000 * n) /\
    d = setZone (SunTimes.roundMinute st t') timezone.
Proof.
  unfold SunTimes.localizeRiseSet. intros Hd.
  apply localize_result in Hd as (t' & Hshift & Hd).
  assert (exists n, t' = plus_millis t (1000 * n)) as [n Hn].
  { destruct (m >? 0)%float;
      [exact (plus_seconds_some _ _ _ Hshift)|exact (minus_seconds_some _ _ _ Hshift)]. }
  now exists t', n.
Qed.

(** A [DateTime] that [sunRiseSet] returns is the one its last step built. *)
Lemma sunRiseSet_date (st : Settings) (datetime : DateTime) (phi L : float)
    (flag : string) (offset : float) (d : DateTime) :
  SunTimes.sunRiseSet st datetime phi L flag offset = Normal (SunTimes.IsDate (Some d)) ->
  exists m,
    SunTimes.fraction (SunTimes.sunRiseSetRun st datetime phi L flag offset) = Some m /\
    SunTimes.localizeRiseSet st (SunTimes.utcMidnight datetime) m (zone datetime)
      = Normal (Some d) /\
    forall st',
      SunTimes.sunRiseSet st' datetime phi L flag offset =
      andThen (SunTimes.localizeRiseSet st' (SunTimes.utcMidnight datetime) m (zone datetime))
        SunTimes.IsDate.
Proof.
  unfold SunTimes.sunRiseSet, SunTimes.sunRiseSetRun. cbv zeta.
  destruct (SunTimes.approxLocalHourAngle _ _ _) as [H0|code|message]; try discriminate.
  destruct (SunTimes.startFraction _ _ _) as [m|]; [|discriminate].
  cbn [SunTimes.returned SunTimes.fraction]. intros Hd. eexists.
  split; [reflexivity|]. split; [|reflexivity].
  destruct (SunTimes.localizeRiseSet _ _ _ _) as [d'|code|message]; simpl in Hd;
    congruence.
Qed.

(** Every instant the two solvers return is the UTC midnight of the date
    moved by a whole number of seconds, then rounded if the setting asks for
    it, and shown in the zone of the date. *)
Lemma solver_instant_shape (st : Settings) (datetime : DateTime) (phi L : float)
    (flag : string) (offset : float) (d : DateTime) :
  SunTimes.sunTransit st datetime L = Normal (Some d) \/
  SunTimes.sunRiseSet st datetime phi L flag offset = Normal (SunTimes.IsDate (Some d)) ->
  exists n,
    zone d = zone datetime /\ errorCode d = None /\
    ts d =
      if roundToNearestMinute st
      then ts (SunTimes.utcMidnight datetime) + 1000 * n + 30000
           - (ts (SunTimes.utcMidnight datetime) + 1000 * n + 30000) mod 60000
           + (ts (SunTimes.utcMidnight datetime) + 1000 * n + 30000) mod 1000
      else ts (SunTimes.utcMidnight datetime) + 1000 * n.
Proof.
  destruct (utcMidnight_ts datetime) as [_ Hzone].
  assert (forall t' n,
    t' = plus_millis (SunTimes.utcMidnight datetime) (1000 * n) ->
    d = setZone (SunTimes.roundMinute st t') (zone datetime) ->
    exists n,
      zone d = zone datetime /\ errorCode d = None /\
      ts d =
        if roundToNearestMinute st
        then ts (SunTimes.utcMidnight datetime) + 1000 * n + 30000
             - (ts (SunTimes.utcMidnight datetime) + 1000 * n + 30000) mod 60000
             + (ts (SunTimes.utcMidnight datetime) + 1000 * n + 30000) mod 1000
        else ts (SunTimes.utcMidnight datetime) + 1000 * n) as Hshape.
  { intros t' n -> ->. exists n. unfold setZone. split; [reflexivity|]. split; [reflexivity|].
    cbn [ts].
    destruct (roundMinute_ts st (plus_millis (SunTimes.utcMidnight datetime) (1000 * n))
                Hzone) as [_ Hround].
    exact Hround. }
  intros [Htransit | Hrise].
  - unfold SunTimes.sunTransit in Htransit. cbv zeta in Htransit.
    apply localizeTransit_result in Htransit as (t' & n & _ & Ht' & Hd).
    exact (Hshape t' n Ht' Hd).
  - apply sunRiseSet_date in Hrise as (m & _ & Hlocal & _).
    apply localizeRiseSet_result in Hlocal as (t' & n & _ & Ht' & Hd).
    exact (Hshape t' n Ht' Hd).
Qed.

(** X5: an instant that [sunTransit] or [sunRiseSet] returns is shown in the
    zone of the date that was passed, carries no [errorCode], and keeps the
    millisecond of that date's wall clock: the solvers work in whole seconds
    from a midnight whose millisecond is not cleared. *)
Theorem solver_keeps_zone_and_millisecond (st : Settings) (datetime : DateTime)
    (phi L : float) (flag : string) (offset : float) (d : DateTime) :
  SunTimes.sunTransit st datetime L = Normal (Some d) \/
  SunTimes.sunRiseSet st datetime phi L flag offset = Normal (SunTimes.IsDate (Some d)) ->
  zone d = zone datetime /\
  errorCode d = None /\
  ts d mod 1000 = localMillis datetime mod 1000.
Proof.
  intros Hd. destruct (solver_instant_shape st datetime phi L flag offset d Hd)
    as (n & Hzone & Hcode & Hts).
  split; [exact Hzone|]. split; [exact Hcode|].
  destruct (utcMidnight_ts datetime) as [Hmidnight _].
  rewrite Hts. destruct (roundToNearestMinute st); Z.div_mod_to_equations; lia.
Qed.

(** X6: with [roundToNearestMinute] set, an instant that comes back is on a
    whole minute of the clock, apart from the millisecond of the date that
    was passed; and it is the instant of the same call without the setting
    moved by a whole number of seconds, at most 29 back and at most 30 on
    (half a minute goes up). *)
Theorem rounding_to_the_minute (st exact : Settings) (datetime : DateTime)
    (phi L : float) (flag : string) (offset : float) (d : DateTime) :
  roundToNearestMinute st = true ->
  roundToNearestMinute exact = false ->
  (SunTimes.sunTransit st datetime L = Normal (Some d) ->
   ts d mod 60000 = localMillis datetime mod 1000 /\
   exists d0,
     SunTimes.sunTransit exact datetime L = Normal (Some d0) /\
     -29000 <= ts d - ts d0 <= 30000 /\ (ts d - ts d0) mod 1000 = 0) /\
  (SunTimes.sunRiseSet st datetime phi L flag offset = Normal (SunTimes.IsDate (Some d)) ->
   ts d mod 60000 = localMillis datetime mod 1000 /\
   exists d0,
     SunTimes.sunRiseSet exact datetime phi L flag offset =
       Normal (SunTimes.IsDate (Some d0)) /\
     -29000 <= ts d - ts d0 <= 30000 /\ (ts d - ts d0) mod 1000 = 0).
Proof.
  intros Hst Hexact. destruct (utcMidnight_ts datetime) as [Hmidnight Hzone].
  assert (forall t' n,
    t' = plus_millis (SunTimes.utcMidnight datetime) (1000 * n) ->
    ts (setZone (SunTimes.roundMinute st t') (zone datetime)) mod 60000
      = localMillis datetime mod 1000 /\
    -29000 <= ts (setZone (SunTimes.roundMinute st t') (zone datetime))
              - ts (setZone (SunTimes.roundMinute exact t') (zone datetime)) <= 30000 /\
    (ts (setZone (SunTimes.roundMinute st t') (zone datetime))
     - ts (setZone (SunTimes.roundMinute exact t') (zone datetime))) mod 1000 = 0) as Hround.
  { intros t' n Ht'.
    assert (zone t' = UTC) as Hzt by (subst t'; exact Hzone).
    assert (ts t' = ts (SunTimes.utcMidnight datetime) + 1000 * n) as Hts
      by (subst t'; reflexivity).
    destruct (roundMinute_ts st t' Hzt) as [_ Hrounded].
    destruct (roundMinute_ts exact t' Hzt) as [_ Hkept].
    rewrite Hst in Hrounded. rewrite Hexact in Hkept.
    unfold setZone. cbn [ts]. rewrite Hrounded, Hkept, Hts.
    repeat split; Z.div_mod_to_equations; lia. }
  split.
  - intros Hd. unfold SunTimes.sunTransit in *. cbv zeta in *.
    apply localizeTransit_result in Hd as (t' & n & Hshift & Ht' & ->).
    destruct (Hround t' n Ht') as (Hminute & Hnear & Hwhole).
    split; [exact Hminute|]. eexists. split; [|split; [exact Hnear|exact Hwhole]].
    unfold SunTimes.localizeTransit. rewrite Hshift. reflexivity.
  - intros Hd. apply sunRiseSet_date in Hd as (m & _ & Hlocal & Hother).
    apply localizeRiseSet_result in Hlocal as (t' & n & Hshift & Ht' & ->).
    destruct (Hround t' n Ht') as (Hminute & Hnear & Hwhole).
    split; [exact Hminute|]. eexists. split; [|split; [exact Hnear|exact Hwhole]].
    rewrite (Hother exact). unfold SunTimes.localizeRiseSet. rewrite Hshift. reflexivity.
Qed.

(** X7: of the date passed, the solvers use the zone, the offset, the
    calendar day of the wall clock and its millisecond, and nothing else: two
    dates of the same zone with the same offset, on the same day with the
    same millisecond, give the same transit, the same sunrise or sunset and
    the same number of corrections, whatever the time of day and whatever
    [errorCode] they carry. *)
Theorem solver_uses_the_day_of_the_date (st : Settings) (date1 date2 : DateTime)
    (phi L : float) (flag : string) (offset : float) :
  zone date1 = zone date2 ->
  Luxon.offset date1 = Luxon.offset date2 ->
  localMillis date1 / 86400000 = localMillis date2 / 86400000 ->
  localMillis date1 mod 1000 = localMillis date2 mod 1000 ->
  SunTimes.sunTransit st date1 L = SunTimes.sunTransit st date2 L /\
  SunTimes.sunRiseSetRun st date1 phi L flag offset =
  SunTimes.sunRiseSetRun st date2 phi L flag offset.
Proof.
  intros Hzone Hoffset Hday Hms.
  assert (SunTimes.utcMidnight date1 = SunTimes.utcMidnight date2) as Hmidnight.
  { unfold SunTimes.utcMidnight. f_equal. unfold set_hms. rewrite Hzone, Hoffset. f_equal.
    assert (localMillis date1 - localMillis date1 mod 86400000 =
            localMillis date2 - localMillis date2 mod 86400000) as Hstart
      by (Z.div_mod_to_equations; lia).
    lia. }
  unfold SunTimes.sunTransit, SunTimes.sunRiseSetRun.
  now rewrite Hmidnight, Hzone, Hoffset.
Qed.

Close Scope Z_scope.

End SunTimesInstants.

(** ** More on the arithmetic of Numbers *)

Lemma nan_spec (x : float) : (x =? x) = false <-> Prim2SF x = S754_nan.
Proof.
  rewrite FloatAxioms.eqb_spec. unfold SFeqb. split.
  - destruct (Prim2SF x) as [s|s| |s m e]; simpl; try reflexivity.
    + discriminate.
    + destruct s; discriminate.
    + change (Pos.compare_cont Eq) with Pos.compare.
      rewrite Z.compare_refl, Pos.compare_refl. destruct s; discriminate.
  - now intros ->.
Qed.

Lemma add_nan_l (x y : float) : (x =? x) = false -> (x + y =? x + y) = false.
Proof. rewrite !nan_spec, add_spec. now intros ->. Qed.

Lemma add_nan_r (x y : float) : (y =? y) = false -> (x + y =? x + y) = false.
Proof. rewrite !nan_spec, add_spec. intros ->. now destruct (Prim2SF x). Qed.

Lemma sub_nan_l (x y : float) : (x =? x) = false -> (x - y =? x - y) = false.
Proof. rewrite !nan_spec, sub_spec. now intros ->. Qed.

Lemma mul_nan_r (x y : float) : (y =? y) = false -> (x * y =? x * y) = false.
Proof. rewrite !nan_spec, mul_spec. intros ->. now destruct (Prim2SF x). Qed.

Lemma div_nan_l (x y : float) : (x =? x) = false -> (x / y =? x / y) = false.
Proof. rewrite !nan_spec, div_spec. now intros ->. Qed.

Lemma SFmul_comm (prec emax : Z) (x y : spec_float) :
  SFmul prec emax x y = SFmul prec emax y x.
Proof.
  destruct x as [sx|sx| |sx mx ex], y as [sy|sy| |sy my ey]; simpl;
    try rewrite (xorb_comm sx sy); try reflexivity.
  now rewrite (Pos.mul_comm mx my), (Z.add_comm ex ey).
Qed.

(** The product of two Numbers does not depend on their order. *)
Lemma mul_comm (x y : float) : x * y = y * x.
Proof. apply Prim2SF_inj. rewrite !mul_spec. apply SFmul_comm. Qed.

Lemma mul_opp_opp (x y : float) : (- x) * (- y) = x * y.
Proof.
  apply Prim2SF_inj. rewrite !mul_spec, !opp_spec.
  destruct (Prim2SF x) as [sx|sx| |sx mx ex], (Prim2SF y) as [sy|sy| |sy my ey]; simpl;
    try reflexivity; destruct sx, sy; reflexivity.
Qed.

(** ** The domain check, again *)

Section DomainCheck.

Context {math : Math.Lib} {aux : auxMath.Ops} {tables : constants.Tables}
  {conversions : timeConversions.Ops}.

(** X8: an argument of the arc cosine that is not a finite number: minus
    infinity raises SUN_HIGH and plus infinity SUN_LOW, but NaN (from a NaN
    latitude, declination or offset, or from 0/0 at a pole) passes the check:
    no code is thrown, [approxLocalHourAngle] returns the arc cosine of NaN,
    and [sunRiseSet] goes on with it. *)
Theorem approxLocalHourAngle_not_finite (phi delta offset : float) :
  let arg := SunTimes.cosH0 phi delta offset in
  ((arg =? neg_infinity) = true ->
   SunTimes.approxLocalHourAngle phi delta offset = Throw SunTimes.noEventCodes.SUN_HIGH) /\
  ((arg =? infinity) = true ->
   SunTimes.approxLocalHourAngle phi delta offset = Throw SunTimes.noEventCodes.SUN_LOW) /\
  ((arg =? arg) = false ->
   SunTimes.approxLocalHourAngle phi delta offset =
     Normal (auxMath.rad2deg (Math.acos arg)) /\
   forall st datetime L flag code,
     delta = SunTimes.declinationAt0hTD datetime ->
     SunTimes.sunRiseSet st datetime phi L flag offset <> Throw code).
Proof.
  intros arg. unfold SunTimes.approxLocalHourAngle. fold arg.
  split; [|split].
  - intros Hinf. destruct (ltb_cong arg neg_infinity (-1) Hinf) as [-> _]. reflexivity.
  - intros Hinf. destruct (ltb_cong arg infinity (-1) Hinf) as [-> _].
    destruct (ltb_cong arg infinity 1 Hinf) as [_ ->]. reflexivity.
  - intros Hnan. destruct (nan_not_ltb arg (-1) Hnan) as [Hlow _].
    destruct (nan_not_ltb arg 1 Hnan) as [_ Hhigh].
    assert (SunTimes.approxLocalHourAngle phi delta offset =
            Normal (auxMath.rad2deg (Math.acos arg))) as Happrox.
    { unfold SunTimes.approxLocalHourAngle. fold arg. now rewrite Hlow, Hhigh. }
    split; [now rewrite Hlow, Hhigh|].
    intros st datetime L flag code -> Hthrow.
    unfold SunTimes.sunRiseSet in Hthrow.
    rewrite (sunRiseSetRun_normal st datetime phi L flag offset _ Happrox) in Hthrow.
    cbv zeta in Hthrow. destruct (SunTimes.startFraction _ _ _); [|discriminate].
    cbn [SunTimes.returned] in Hthrow. now apply localizeRiseSet_no_code in Hthrow.
Qed.

(** X9: the approximate hour angle does not tell the latitude from the
    declination: with the two exchanged, [approxLocalHourAngle] throws the
    same code or returns the same Number, bit for bit. *)
Theorem approxLocalHourAngle_exchange (phi delta offset : float) :
  SunTimes.approxLocalHourAngle phi delta offset =
  SunTimes.approxLocalHourAngle delta phi offset.
Proof.
  unfold SunTimes.approxLocalHourAngle, SunTimes.cosH0.
  now rewrite (mul_comm (auxMath.sind phi)), (mul_comm (auxMath.cosd phi)).
Qed.

(** X10: the two hemispheres mirror each other: where the sine of the library
    is odd and its cosine even at the latitude and at the declination, the
    check at the opposite latitude with the opposite declination throws the
    same code or returns the same Number. *)
Theorem approxLocalHourAngle_mirror (phi delta offset : float) :
  auxMath.sind (- phi) = - auxMath.sind phi ->
  auxMath.sind (- delta) = - auxMath.sind delta ->
  auxMath.cosd (- phi) = auxMath.cosd phi ->
  auxMath.cosd (- delta) = auxMath.cosd delta ->
  SunTimes.approxLocalHourAngle (- phi) (- delta) offset =
  SunTimes.approxLocalHourAngle phi delta offset.
Proof.
  intros Hsphi Hsdelta Hcphi Hcdelta.
  unfold SunTimes.approxLocalHourAngle, SunTimes.cosH0.
  now rewrite Hsphi, Hsdelta, Hcphi, Hcdelta, mul_opp_opp.
Qed.

End DomainCheck.

(** ** [handleNoEventCase], again *)

(** X11: what [handleNoEventCase] takes from the date is its instant and its
    zone: a code the date carries already is not handed on, and the setting
    [roundToNearestMinute] is not read.  With no code to report ([undefined]
    or the empty string) and [returnTimeForNoEventCase] set, the date that
    comes back carries no [errorCode] (it is the date Luxon's [set] finds for
    the hour and the minute, which reads them whenever the zone has that wall
    clock, moved on by an hour in daylight-saving time); with the setting
    cleared the falsy code itself comes back. *)
Theorem handleNoEventCase_without_code (st : Settings) (date : DateTime)
    (errorCode : option string) (hour minute : Z) :
  errorCode = None \/ errorCode = Some EmptyString ->
  (returnTimeForNoEventCase st = true ->
   SunTimes.handleNoEventCase st date errorCode hour minute =
   SunTimes.NoEventDate
     {| ts := (ts (set_hms date hour minute 0)
               + (if isInDST date then 60 * 60000 else 0))%Z;
        zone := zone date;
        Luxon.errorCode := None |} /\
   (clockFound date hour minute ->
    (0 <= hour < 24)%Z -> (0 <= minute < 60)%Z ->
    (localMillis (set_hms date hour minute 0) mod 86400000
     = 3600000 * hour + 60000 * minute + localMillis date mod 1000)%Z)) /\
  (returnTimeForNoEventCase st = false ->
   SunTimes.handleNoEventCase st date errorCode hour minute =
   SunTimes.NoEventCode errorCode) /\
  (forall st' date',
     returnTimeForNoEventCase st' = returnTimeForNoEventCase st ->
     ts date' = ts date -> zone date' = zone date ->
     SunTimes.handleNoEventCase st' date' errorCode hour minute =
     SunTimes.handleNoEventCase st date errorCode hour minute).
Proof.
  intros Hfalsy.
  assert (SunTimes.truthy errorCode = false) as Htruthy
    by (destruct Hfalsy as [-> | ->]; reflexivity).
  unfold SunTimes.handleNoEventCase. rewrite Htruthy. split; [|split].
  - intros ->. split.
    + unfold plus_minutes, plus_millis. destruct (isInDST date); reflexivity.
    + intros Hfound Hhour Hminute.
      exact (proj2 (set_hms_reads date hour minute Hfound Hhour Hminute)).
  - now intros ->.
  - intros st' date' -> Hts Hzone.
    destruct (returnTimeForNoEventCase st); [|reflexivity].
    unfold set_hms, plus_minutes, plus_millis, fromLocal, localMillis, isInDST, Luxon.offset.
    cbn [ts zone]. now rewrite Hts, Hzone.
Qed.

(** ** The tables *)

Lemma fold_left_ext_in {A B : Type} (f g : A -> B -> A) (l : list B) :
  (forall a b, In b l -> f a b = g a b) ->
  forall a, fold_left f l a = fold_left g l a.
Proof.
  induction l as [|b l IH]; intros Hfg a; [reflexivity|].
  simpl. rewrite (Hfg a b (or_introl eq_refl)). apply IH.
  intros a' b' Hin. apply Hfg. now right.
Qed.

Section Tables.

Context {aux : auxMath.Ops}.

(** X12: the two loops of the nutation read the rows 0 to 62 and the columns
    0 to 8 of the table and nothing else: its length is never looked at, so
    rows after the 63rd and columns after the 9th change neither nutation. *)
Theorem nutation_reads_63_rows (tables : constants.Tables) (rows : list (list float))
    (T : float) :
  (forall i j, (i < 63)%nat -> (j < 9)%nat ->
     constants.at2 rows i j = constants.at2 (@constants.nutations tables) i j) ->
  @SunTimes.nutationInLongitude aux (withNutations tables rows) T =
    @SunTimes.nutationInLongitude aux tables T /\
  @SunTimes.nutationInObliquity aux (withNutations tables rows) T =
    @SunTimes.nutationInObliquity aux tables T.
Proof.
  intros Hrows.
  unfold SunTimes.nutationInLongitude, SunTimes.nutationInObliquity,
    SunTimes.moonMeanElongation, SunTimes.sunMeanAnomaly, SunTimes.moonMeanAnomaly,
    SunTimes.moonArgumentOfLatitude, SunTimes.moonAscendingNodeLongitude.
  cbv zeta. cbn [withNutations constants.moonMeanElongation constants.sunMeanAnomaly
    constants.moonMeanAnomaly constants.moonArgumentOfLatitude
    constants.moonAscendingNodeLongitude].
  split; f_equal; apply fold_left_ext_in; intros a i Hin; apply in_seq in Hin;
    unfold SunTimes.nutationArgument; cbn [withNutations constants.nutations];
    rewrite !Hrows by lia; reflexivity.
Qed.

End Tables.

(** ** The hour angle between two transits

    [localHourAngle] brings the reduced angle from [0, 360) to the half turn
    on either side of the meridian by one subtraction; that the difference
    has the sign it should is a fact of the arithmetic of Numbers. *)

Lemma iter_pos_invariant {A : Type} (P : A -> Prop) (f : A -> A) :
  (forall a, P a -> P (f a)) -> forall n a, P a -> P (iter_pos f n a).
Proof.
  intros Hf. induction n as [n IH|n IH|]; intros a Ha; simpl; auto.
Qed.

Lemma shr_1_nonneg (mrs : shr_record) : (0 <= shr_m mrs)%Z -> (0 <= shr_m (shr_1 mrs))%Z.
Proof.
  destruct mrs as [m r s]. simpl. destruct m as [|p|p]; [easy | | easy].
  intros _. destruct p; simpl; lia.
Qed.

Lemma shr_fexp_nonneg (m e : Z) (l : location) :
  (0 <= m)%Z -> (0 <= shr_m (fst (shr_fexp prec emax m e l)))%Z.
Proof.
  intros Hm. unfold shr_fexp, shr.
  assert (0 <= shr_m (shr_record_of_loc m l))%Z as Hrecord
    by (destruct l as [|[ | | ]]; exact Hm).
  destruct (fexp prec emax (Zdigits2 m + e) - e)%Z; cbn [fst]; try exact Hrecord.
  now apply (iter_pos_invariant (fun mrs => (0 <= shr_m mrs)%Z)); [apply shr_1_nonneg|].
Qed.

Lemma round_nearest_even_nonneg (m : Z) (l : location) :
  (0 <= m)%Z -> (0 <= round_nearest_even m l)%Z.
Proof.
  intros Hm. destruct l as [|[ | | ]]; simpl; try lia. destruct (Z.even m); lia.
Qed.

Lemma binary_round_aux_signed (s : bool) (m e : Z) (l : location) :
  (0 <= m)%Z -> signed s (binary_round_aux prec emax s m e l).
Proof.
  intros Hm. unfold binary_round_aux.
  pose proof (shr_fexp_nonneg m e l Hm) as Hfirst.
  destruct (shr_fexp prec emax m e l) as [mrs' e'] eqn:Efirst. cbn [fst] in Hfirst.
  pose proof (shr_fexp_nonneg _ e' loc_Exact
    (round_nearest_even_nonneg _ (loc_of_shr_record mrs') Hfirst)) as Hsecond.
  destruct (shr_fexp prec emax _ e' loc_Exact) as [mrs'' e''] eqn:Esecond.
  cbn [fst] in Hsecond.
  destruct (shr_m mrs'') as [|p|p]; [reflexivity | | lia].
  now destruct (e'' <=? emax - prec)%Z.
Qed.

Lemma binary_normalize_negative (m e : Z) (szero : bool) :
  (m < 0)%Z -> signed true (binary_normalize prec emax m e szero).
Proof.
  destruct m as [|p|p]; try lia. intros _. simpl. unfold binary_round.
  destruct (shl_align _ _ _) as [mz ez]. now apply binary_round_aux_signed.
Qed.

Lemma digits2_pos_bound (m : positive) : (Z.pos m < 2 ^ Z.pos (digits2_pos m))%Z.
Proof.
  induction m as [m IH|m IH|]; simpl digits2_pos;
    rewrite ?Pos2Z.inj_succ, ?Z.pow_succ_r by lia; lia.
Qed.


Lemma digits2_pos_least (m : positive) : (2 ^ (Z.pos (digits2_pos m) - 1) <= Z.pos m)%Z.
Proof.
  induction m as [m IH|m IH|]; simpl digits2_pos; [| |simpl; lia];
    rewrite Pos2Z.inj_succ; replace (Z.succ (Z.pos (digits2_pos m)) - 1)%Z
      with (Z.succ (Z.pos (digits2_pos m) - 1)) by lia;
    rewrite Z.pow_succ_r by lia; lia.
Qed.

Lemma iter_xO_spec (m d : positive) : Z.pos (Pos.iter xO m d) = (Z.pos m * 2 ^ Z.pos d)%Z.
Proof.
  induction d as [|d IH] using Pos.peano_ind.
  - simpl. lia.
  - rewrite Pos.iter_succ, Pos2Z.inj_succ, Z.pow_succ_r by lia.
    rewrite Pos2Z.inj_xO, IH. lia.
Qed.

(** Of two positive Numbers the smaller one has the smaller aligned
    mantissa. *)
Lemma SFcompare_Lt_aligned (mx my : positive) (ex ey : Z) :
  valid_binary (S754_finite false mx ex) = true ->
  valid_binary (S754_finite false my ey) = true ->
  SFcompare (S754_finite false mx ex) (S754_finite false my ey) = Some Lt ->
  (Z.pos (fst (shl_align mx ex (Z.min ex ey))) < Z.pos (fst (shl_align my ey (Z.min ex ey))))%Z.
Proof.
  unfold valid_binary, bounded, canonical_mantissa, fexp, emin. simpl SFcompare.
  intros Hx Hy Hlt.
  apply andb_prop in Hx as [Hx _]. apply andb_prop in Hy as [Hy _].
  apply Z.eqb_eq in Hx, Hy.
  pose proof (digits2_pos_bound mx) as Hmx. pose proof (digits2_pos_least my) as Hmy.
  destruct (Z.compare_spec ex ey) as [-> | Hex | Hex]; try discriminate.
  - rewrite Z.min_id. unfold shl_align. rewrite Z.sub_diag. cbn [fst].
    injection Hlt as Hlt. change (Pos.compare_cont Eq mx my) with (mx ?= my)%positive in Hlt.
    now apply Pos.compare_lt_iff in Hlt.
  - rewrite Z.min_l by lia. unfold shl_align. rewrite Z.sub_diag.
    destruct (ex - ey)%Z as [|d|d] eqn:Hd; try lia. cbn [fst].
    rewrite iter_xO_spec.
    assert (Z.pos (digits2_pos my) = 53)%Z as Hdy by (unfold prec, emax in *; lia).
    assert (Z.pos (digits2_pos mx) <= 53)%Z as Hdx by (unfold prec, emax in *; lia).
    rewrite Hdy in Hmy. change (2 ^ (53 - 1))%Z with (2 ^ 52)%Z in Hmy.
    assert (2 ^ Z.pos (digits2_pos mx) <= 2 ^ 53)%Z by (apply Z.pow_le_mono_r; lia).
    assert (2 ^ 1 <= 2 ^ Z.pos d)%Z by (apply Z.pow_le_mono_r; lia).
    change (2 ^ 53)%Z with (2 * 2 ^ 52)%Z in *. change (2 ^ 1)%Z with 2%Z in *. nia.
Qed.

(** The difference of two positive Numbers, the first below the second, is
    negative: a zero, a finite number or an infinity with the sign bit set. *)
Lemma sub_negative (x y : float) :
  (0 <? x) = true -> (x <? y) = true -> signed true (Prim2SF (x - y)).
Proof.
  rewrite !FloatAxioms.ltb_spec, FloatAxioms.sub_spec. unfold SFltb.
  pose proof (Prim2SF_valid x) as Hvx. pose proof (Prim2SF_valid y) as Hvy.
  change (Prim2SF 0) with (S754_zero false).
  destruct (Prim2SF x) as [sx|sx| |sx mx ex]; simpl; try discriminate.
  - destruct sx; [discriminate|]. intros _.
    destruct (Prim2SF y) as [sy|sy| |sy my ey]; simpl; try discriminate;
      destruct sy; discriminate.
  - destruct sx; [discriminate|]. intros _.
    destruct (Prim2SF y) as [sy|sy| |sy my ey]; try discriminate.
    + destruct sy; [discriminate|]. intros _. reflexivity.
    + destruct sy; [discriminate|]. intros Hlt.
      unfold SF64sub, SFsub. cbn [cond_Zopp].
      apply binary_normalize_negative.
      assert (SFcompare (S754_finite false mx ex) (S754_finite false my ey) = Some Lt) as Hcmp.
      { simpl. revert Hlt.
        destruct (ex ?= ey)%Z; [destruct (Pos.compare_cont Eq mx my)| |];
          intros; try discriminate; reflexivity. }
      pose proof (SFcompare_Lt_aligned mx my ex ey Hvx Hvy Hcmp). lia.
Qed.

Lemma signed_leb (z c : float) :
  signed true (Prim2SF z) -> (0 <=? c) = true -> (z <=? c) = true.
Proof.
  rewrite !FloatAxioms.leb_spec. unfold SFleb. change (Prim2SF 0) with (S754_zero false).
  destruct (Prim2SF z) as [sz|sz| |sz mz ez]; simpl; try easy; intros ->;
    destruct (Prim2SF c) as [sc|sc| |sc mc ec]; simpl; try easy; now destruct sc.
Qed.

Lemma SFcompare_None (f1 f2 : spec_float) :
  SFcompare f1 f2 = None -> f1 = S754_nan \/ f2 = S754_nan.
Proof.
  destruct f1 as [s1|s1| |s1 m1 e1], f2 as [s2|s2| |s2 m2 e2]; simpl;
    try discriminate; auto.
Qed.

(** Of two Numbers that are not NaN, one not above the other is below it or
    equal to it. *)
Lemma ltb_false_leb (x y : float) :
  (y <? x) = false -> (x =? x) = true -> (y =? y) = true -> (x <=? y) = true.
Proof.
  rewrite FloatAxioms.ltb_spec, FloatAxioms.leb_spec. unfold SFltb, SFleb.
  rewrite (SFcompare_swap (Prim2SF x) (Prim2SF y)).
  destruct (SFcompare (Prim2SF x) (Prim2SF y)) as [[ | | ]|] eqn:E; simpl; try easy.
  intros _ Hx Hy. destruct (SFcompare_None _ _ E) as [Hnan | Hnan];
    apply nan_spec in Hnan; congruence.
Qed.

Lemma ltb_not_nan (x y : float) : (x <? y) = true -> (x =? x) = true.
Proof.
  intros Hlt. destruct (x =? x) eqn:Hx; [reflexivity|].
  destruct (nan_not_ltb x y Hx). congruence.
Qed.

Section HourAngle.

Context {aux : auxMath.Ops}.

(** X13: [localHourAngle] never returns more than 180 degrees, as far as
    [reduceAngle] ends below 360: a reduced angle up to 180 is returned as it
    is; from one above 180 a full turn is taken off, and what is returned is
    not positive. *)
Theorem localHourAngle_at_most_180 (theta0 L alpha : float) :
  let H := auxMath.reduceAngle (theta0 + L - alpha) in
  (H <? 360) = true ->
  (SunTimes.localHourAngle theta0 L alpha <=? 180) = true /\
  ((H >? 180) = false -> SunTimes.localHourAngle theta0 L alpha = H) /\
  ((H >? 180) = true ->
   SunTimes.localHourAngle theta0 L alpha = H - 360 /\
   (SunTimes.localHourAngle theta0 L alpha <=? 0) = true).
Proof.
  intros H Hbelow. unfold SunTimes.localHourAngle. fold H. cbv zeta.
  destruct (H >? 180) eqn:Habove.
  - assert (signed true (Prim2SF (H - 360))) as Hsigned.
    { apply sub_negative; [|exact Hbelow].
      now apply (ltb_trans 0 180 H). }
    split; [|split]; [|discriminate|intros _; split; [reflexivity|]];
      now apply signed_leb.
  - split; [|split]; [|reflexivity|discriminate].
    apply ltb_false_leb; [exact Habove| |reflexivity].
    now apply (ltb_not_nan H 360).
Qed.

End HourAngle.

(** ** Numbers that are not numbers

    [(x =? x) = false] says that [x] is NaN, the one Number that differs from
    itself. *)

Lemma sub_nan_r (x y : float) : (y =? y) = false -> (x - y =? x - y) = false.
Proof. rewrite !nan_spec, sub_spec. intros ->. now destruct (Prim2SF x). Qed.

Lemma mul_nan_l (x y : float) : (x =? x) = false -> (x * y =? x * y) = false.
Proof. rewrite !nan_spec, mul_spec. now intros ->. Qed.

Lemma floor_nan (x : float) : (x =? x) = false <-> Math.floor x = NotANumber.
Proof.
  rewrite nan_spec. unfold Math.floor. split; [now intros ->|].
  now destruct (Prim2SF x).
Qed.

Section NotANumber.

Context {math : Math.Lib} {aux : auxMath.Ops} {tables : constants.Tables}
  {conversions : timeConversions.Ops}.

Lemma normalizeM_nan (m utcOffset : float) :
  (m =? m) = false -> SunTimes.normalizeM m utcOffset = m.
Proof.
  intros Hnan. unfold SunTimes.normalizeM. cbv zeta.
  destruct (nan_not_ltb (m + utcOffset / 1440) 0 (add_nan_l m _ Hnan)) as [-> _].
  now destruct (nan_not_ltb (m + utcOffset / 1440) 1 (add_nan_l m _ Hnan)) as [_ ->].
Qed.

Lemma riseSetIterate_nan (T Theta0 DeltaT phi L offset m : float) :
  (m =? m) = false ->
  let s := SunTimes.riseSetIterate T Theta0 DeltaT phi L offset m in
  (SunTimes.loop_m s =? SunTimes.loop_m s) = false.
Proof.
  intros Hnan. cbv zeta. rewrite riseSetIterate_rounds. cbv zeta.
  repeat match goal with
  | |- context [if ?test then _ else _] => destruct test
  end; cbn [SunTimes.loop_m]; repeat apply add_nan_l; exact Hnan.
Qed.

(** The count of seconds of a fraction that is NaN is NaN. *)
Lemma seconds_nan (m : float) :
  (m =? m) = false -> Math.floor (m * 3600 * 24 + 0.5) = NotANumber.
Proof. intros Hnan. now apply floor_nan, add_nan_l, mul_nan_l, mul_nan_l. Qed.

Lemma localizeTransit_nan (st : Settings) (transit : DateTime) (m : float) (timezone : Zone) :
  (m =? m) = false ->
  SunTimes.localizeTransit st transit m timezone = ThrowError invalidUnitValueNaN.
Proof.
  intros Hnan. unfold SunTimes.localizeTransit. now rewrite (seconds_nan m Hnan).
Qed.

Lemma localizeRiseSet_nan (st : Settings) (suntime : DateTime) (m : float) (timezone : Zone) :
  (m =? m) = false ->
  SunTimes.localizeRiseSet st suntime m timezone = ThrowError invalidUnitValueNaN.
Proof.
  intros Hnan. unfold SunTimes.localizeRiseSet.
  destruct (nan_not_ltb m 0 Hnan) as [_ ->]. now rewrite (seconds_nan m Hnan).
Qed.

(** X14: a longitude that is NaN is not rejected by the solver, and the
    call ends in the [Error] of Luxon.  In [sunTransit] the fraction of the
    day is NaN, so the count of seconds handed to [plus] is NaN, and [plus]
    throws; in [sunRiseSet], when the domain check passes (the check does not
    see the longitude), the loop runs for 'RISE' and 'SET', at least one
    round, ends with a fraction that is NaN, and [minus] throws. *)
Theorem nan_longitude_throws_in_luxon (st : Settings) (datetime : DateTime)
    (phi L : float) (flag : string) (offset : float) :
  (L =? L) = false ->
  SunTimes.sunTransit st datetime L = ThrowError invalidUnitValueNaN /\
  (forall H0,
     SunTimes.approxLocalHourAngle phi (SunTimes.declinationAt0hTD datetime) offset
       = Normal H0 ->
     flag = "RISE"%string \/ flag = "SET"%string ->
     let run := SunTimes.sunRiseSetRun st datetime phi L flag offset in
     SunTimes.returned run = ThrowError invalidUnitValueNaN /\
     (exists m, SunTimes.fraction run = Some m /\ (m =? m) = false) /\
     (1 <= SunTimes.corrections run)%nat).
Proof.
  intros Hnan.
  assert (forall alpha Theta0 utcOffset,
    let m := SunTimes.normalizeM ((alpha - L - Theta0) / 360) utcOffset in
    (m =? m) = false) as Hm.
  { intros alpha Theta0 utcOffset. cbv zeta.
    assert (((alpha - L - Theta0) / 360 =? (alpha - L - Theta0) / 360) = false) as Hraw
      by now apply div_nan_l, sub_nan_l, sub_nan_r.
    now rewrite (normalizeM_nan _ utcOffset Hraw). }
  split.
  - unfold SunTimes.sunTransit. cbv zeta.
    apply localizeTransit_nan, add_nan_l, Hm.
  - intros H0 Hcheck Hflag run. subst run.
    rewrite (sunRiseSetRun_normal st datetime phi L flag offset H0 Hcheck). cbv zeta.
    match goal with
    | |- context [SunTimes.startFraction flag ?m0 H0] =>
        assert ((m0 =? m0) = false) as Hm0 by apply Hm;
        assert (exists m, SunTimes.startFraction flag m0 H0 = Some m /\ (m =? m) = false)
          as (m & -> & Hstart)
    end.
    { destruct Hflag as [-> | ->]; eexists; (split; [reflexivity|]).
      - now apply sub_nan_l.
      - now apply add_nan_l. }
    cbn [SunTimes.returned SunTimes.corrections SunTimes.fraction].
    pose proof (riseSetIterate_nan
      (timeConversions.datetimeToT (SunTimes.utcMidnight datetime))
      (SunTimes.apparentSiderealTimeGreenwich
         (timeConversions.datetimeToT (SunTimes.utcMidnight datetime)))
      (timeConversions.DeltaT (SunTimes.utcMidnight datetime)) phi L offset m Hstart)
      as Hend.
    cbv zeta in Hend.
    rewrite localizeRiseSet_nan by exact Hend.
    split; [reflexivity|]. split; [eexists; split; [reflexivity|exact Hend]|].
    rewrite riseSetIterate_rounds. cbv zeta.
    repeat match goal with
    | |- context [if ?test then _ else _] => destruct test
    end; cbn [SunTimes.loop_counter]; lia.
Qed.

End NotANumber.

(** * Further facts on [src/moonPhases.js] *)

Section MoonPhasesNotANumber.

Context {aux : auxMath.Ops} {conversions : timeConversions.Ops}.

(** X15: [truePhase] on NaN: when the lunation number or the phase is NaN,
    the Julian date that comes back is NaN, whatever [timeConversions.kToT]
    and [auxMath.sind] make of it. *)
Theorem truePhase_nan (k phase : float) :
  (k =? k) = false \/ (phase =? phase) = false ->
  (MoonPhases.truePhase k phase =? MoonPhases.truePhase k phase) = false.
Proof.
  intros Hnan. unfold MoonPhases.truePhase. cbv zeta.
  assert ((k + phase / 4 =? k + phase / 4) = false) as Hk.
  { destruct Hnan as [Hnan | Hnan].
    - now apply add_nan_l.
    - now apply add_nan_r, div_nan_l. }
  apply add_nan_l. unfold MoonPhases.meanPhase.
  now apply add_nan_l, sub_nan_l, add_nan_l, add_nan_r, mul_nan_r.
Qed.

End MoonPhasesNotANumber.

(** * Runs in the reference environment *)

(** ** Runs for the claims *)

Import Reference.

(** C1: the sunrise of 2020-06-21 at Sydney (33.87 S, 151.21 E, UTC+10) falls
    on the previous UTC day: the loop ends with a negative fraction,
    [m = -0.12497...], that is 10798 seconds before the UTC midnight
    1592697600000.  [sunRiseSet] returns the instant 10798 seconds after that
    midnight (13:00 local time, after the transit of 11:57), where the claim
    has the instant 10798 seconds before it (07:00 local time), which is what
    the line of [sunTransit] gives for the same fraction: the branch for
    [m <= 0] takes the floored count, itself negative, off the midnight. *)
Theorem sunrise_on_previous_utc_day :
  let run := SunTimes.sunRiseSetRun exactSeconds solsticeSydney (-33.87) 151.21 "RISE"
               SunTimes.defaultOffset in
  let midnight := SunTimes.utcMidnight solsticeSydney in
  exists m : float,
    SunTimes.fraction run = Some m /\
    (m <? 0) = true /\
    Math.floor (m * 3600 * 24 + 0.5) = Whole (-10798) /\
    ts midnight = 1592697600000%Z /\
    SunTimes.returned run =
      Normal (SunTimes.IsDate
        (Some {| ts := 1592697600000 + 10798000; zone := sydney; errorCode := None |})) /\
    SunTimes.localizeTransit exactSeconds midnight m sydney =
      Normal (Some {| ts := 1592697600000 - 10798000; zone := sydney; errorCode := None |}) /\
    SunTimes.sunTransit exactSeconds solsticeSydney 151.21 =
      Normal (Some {| ts := 1592697600000 + 7019000; zone := sydney; errorCode := None |}).
Proof.
  exists (-0.12497456483180569).
  repeat split; vm_compute; reflexivity.
Qed.

(** [Math.floor(x + 0.5)] takes an exact half up: a fraction of -1.5 seconds
    moves the transit by -1 second, one of 1.5 seconds by 2 seconds. *)
Example localizeTransit_half_seconds :
  (-1.5 / 86400) * 3600 * 24 = -1.5 /\
  SunTimes.localizeTransit exactSeconds equinox (-1.5 / 86400) UTC =
    Normal (Some {| ts := 1584662400000 - 1000; zone := UTC; errorCode := None |}) /\
  (1.5 / 86400) * 3600 * 24 = 1.5 /\
  SunTimes.localizeTransit exactSeconds equinox (1.5 / 86400) UTC =
    Normal (Some {| ts := 1584662400000 + 2000; zone := UTC; errorCode := None |}).
Proof. repeat split; vm_compute; reflexivity. Qed.

(** The solver at the equator on the day of the equinox: sunrise at 06:04:04
    UTC after one correction, transit at 12:07:20, sunset at 18:10:35 after
    two corrections. *)
Example equinox_at_the_equator :
  SunTimes.sunRiseSetRun exactSeconds equinox 0 0 "RISE" SunTimes.defaultOffset =
    {| SunTimes.returned :=
         Normal (SunTimes.IsDate
           (Some {| ts := 1584662400000 + 21844000; zone := UTC; errorCode := None |}));
       SunTimes.fraction := Some 0.25282430906767273;
       SunTimes.corrections := 1 |} /\
  SunTimes.sunTransit exactSeconds equinox 0 =
    Normal (Some {| ts := 1584662400000 + 43640000; zone := UTC; errorCode := None |}) /\
  SunTimes.returned
    (SunTimes.sunRiseSetRun exactSeconds equinox 0 0 "SET" SunTimes.defaultOffset) =
    Normal (SunTimes.IsDate
      (Some {| ts := 1584662400000 + 65435000; zone := UTC; errorCode := None |})) /\
  SunTimes.corrections
    (SunTimes.sunRiseSetRun exactSeconds equinox 0 0 "SET" SunTimes.defaultOffset) = 2%nat.
Proof. repeat split; vm_compute; reflexivity. Qed.

(** At the equator with no declination the approximate hour angle of the
    standard sunrise is 90.83 degrees. *)
Example approxLocalHourAngle_at_the_equator :
  SunTimes.approxLocalHourAngle 0 0 SunTimes.defaultOffset = Normal 90.833333333333343 /\
  (0 <=? 90.833333333333343) = true /\ (90.833333333333343 <=? 180) = true.
Proof. repeat split; vm_compute; reflexivity. Qed.

(** The claim C5 has the declination never folded; in the middle of January
    the declination is -21.26 degrees, the value interpolated at [n = 0.3] is
    -21.20 degrees, and [interpolatedDec] returns 338.80 degrees. *)
Lemma interpolatedDec_folds_negative_declination :
  let T := timeConversions.datetimeToT midJanuary in
  let delta := auxMath.interpolateFromThree
                 (SunTimes.sunApparentDeclination (T - (1 / 36525)))
                 (SunTimes.sunApparentDeclination T)
                 (SunTimes.sunApparentDeclination (T + (1 / 36525))) 0.3 false in
  SunTimes.sunApparentDeclination T = -21.257018905127616 /\
  delta = -21.203100434362259 /\
  SunTimes.interpolatedDec T 0.3 = 338.79689956563772 /\
  SunTimes.interpolatedDec T 0.3 <> delta /\
  (SunTimes.interpolatedDec T 0.3 <=? 90) = false.
Proof.
  cbv zeta. split; [vm_compute; reflexivity|]. split; [vm_compute; reflexivity|].
  split; [vm_compute; reflexivity|]. split; [|vm_compute; reflexivity].
  apply float_neq; vm_compute; reflexivity.
Qed.

(** The same day: the interpolated declination is negative, [reduceAngle]
    takes it to an angle that is not, and that angle is what
    [interpolatedDec] hands to the correction step. *)
Lemma declination_folded_in_january :
  let T := timeConversions.datetimeToT midJanuary in
  (0 <=? SunTimes.interpolatedDec T 0.3) = true /\
  (SunTimes.interpolatedDec T 0.3 =? -21.203100434362259) = false.
Proof.
  cbv zeta.
  destruct (declination_reduction (timeConversions.datetimeToT midJanuary) 0.3)
    as (_ & _ & _ & _ & _ & _ & _ & Hfold).
  destruct Hfold as (Hrange & _ & Hdiffer); [vm_compute; reflexivity..|].
  split; [exact Hrange|].
  now replace (-21.203100434362259) with
    (auxMath.interpolateFromThree
       (SunTimes.sunApparentDeclination (timeConversions.datetimeToT midJanuary - 1 / 36525))
       (SunTimes.sunApparentDeclination (timeConversions.datetimeToT midJanuary))
       (SunTimes.sunApparentDeclination (timeConversions.datetimeToT midJanuary + 1 / 36525))
       0.3 false) by (vm_compute; reflexivity).
Defined.

(** The claim C8 has a call with an unrecognized flag produce no no-event
    classification; at 70 N on the day of the solstice, for the astronomical
    dawn (18 degrees), the call with the flag 'NOON' throws SUN_HIGH. *)
Lemma unknown_flag_throws_sun_high :
  "NOON"%string <> "RISE"%string /\ "NOON"%string <> "SET"%string /\
  SunTimes.sunRiseSet exactSeconds solstice 70 0 "NOON" 18 =
  Throw SunTimes.noEventCodes.SUN_HIGH.
Proof.
  split; [discriminate|]. split; [discriminate|]. vm_compute. reflexivity.
Qed.

(** At 50 N the same call passes the domain check and returns [false]. *)
Lemma sunRiseSet_unknown_flag_at_50_north :
  SunTimes.corrections
    (SunTimes.sunRiseSetRun exactSeconds solstice 50 0 "NOON" SunTimes.defaultOffset) = 0%nat /\
  SunTimes.sunRiseSet exactSeconds solstice 50 0 "NOON" SunTimes.defaultOffset =
  Normal SunTimes.IsFalse.
Proof.
  destruct (sunRiseSet_unknown_flag exactSeconds solstice 50 0 "NOON" SunTimes.defaultOffset)
    as (Hcorrections & _ & _ & Hfalse & _); [discriminate|discriminate|].
  split; [exact Hcorrections|].
  apply (Hfalse 122.77085764215497). vm_compute. reflexivity.
Defined.

(** A date in daylight-saving time, 03:30 in Oslo on 2020-06-21: the date
    put at 06:00 reads 06:00 of that day, and the fallback comes back an hour
    later, at 05:00 UTC, and carries SUN_HIGH. *)
Lemma handleNoEventCase_in_summer_time :
  exists d,
    SunTimes.handleNoEventCase fallbackTimes solsticeOslo (Some "SUN_HIGH"%string) 6 0 =
    SunTimes.NoEventDate d /\
    errorCode d = Some "SUN_HIGH"%string /\
    zone d = oslo /\
    ts d = 1592715600000%Z /\
    (localMillis (set_hms solsticeOslo 6 0 0) mod 86400000 = 6 * 3600000)%Z.
Proof.
  destruct (handleNoEventCase_observable fallbackTimes solsticeOslo "SUN_HIGH" 6 0
              (or_introl eq_refl)) as [Hdate _].
  destruct (Hdate eq_refl) as (d & Hreturned & Hcode & Hzone & Hts & Hclock).
  exists d. split; [exact Hreturned|]. split; [exact Hcode|]. split; [exact Hzone|].
  split; [rewrite Hts; reflexivity|].
  destruct Hclock as [_ Hreads]; [reflexivity|lia..|].
  rewrite Hreads. reflexivity.
Defined.

(** The day the clocks of Oslo go forward, from its midnight (+01:00): the
    date put at 06:00 is 06:00 summer time, 04:00 UTC, and as the date passed
    is not in daylight-saving time no hour is added. *)
Example handleNoEventCase_on_the_day_of_the_change :
  Luxon.offset springForwardOslo = 60%Z /\
  isInDST springForwardOslo = false /\
  SunTimes.handleNoEventCase fallbackTimes springForwardOslo (Some "SUN_HIGH"%string) 6 0 =
    SunTimes.NoEventDate
      {| ts := 1585454400000; zone := oslo; errorCode := Some "SUN_HIGH"%string |} /\
  Luxon.offset {| ts := 1585454400000; zone := oslo; errorCode := None |} = 120%Z /\
  (localMillis (set_hms springForwardOslo 6 0 0) mod 86400000 = 6 * 3600000)%Z /\
  (* 02:30 does not exist on that day; Luxon reads it as 03:30 *)
  (localMillis (set_hms springForwardOslo 2 30 0) mod 86400000
   = 3 * 3600000 + 30 * 60000)%Z.
Proof. repeat split; vm_compute; reflexivity. Qed.

(** The claim C9 has no state shared across calls; the same call of
    [sunTransit], and of [sunRiseSet], returns another instant once the
    setting [roundToNearestMinute] has been switched on. *)
Lemma shared_setting_changes_the_result :
  SunTimes.sunTransit exactSeconds equinox 0 =
    Normal (Some {| ts := 1584706040000; zone := UTC; errorCode := None |}) /\
  SunTimes.sunTransit wholeMinutes equinox 0 =
    Normal (Some {| ts := 1584706020000; zone := UTC; errorCode := None |}) /\
  SunTimes.sunTransit exactSeconds equinox 0 <> SunTimes.sunTransit wholeMinutes equinox 0 /\
  SunTimes.sunRiseSet exactSeconds equinox 0 0 "RISE" SunTimes.defaultOffset <>
  SunTimes.sunRiseSet wholeMinutes equinox 0 0 "RISE" SunTimes.defaultOffset.
Proof.
  split; [vm_compute; reflexivity|]. split; [vm_compute; reflexivity|].
  split; vm_compute; discriminate.
Qed.

(** Two stores that differ in [returnTimeForNoEventCase] alone. *)
Lemma solver_ignores_the_fallback_setting :
  SunTimes.sunRiseSet exactSeconds equinox 0 0 "RISE" SunTimes.defaultOffset =
  SunTimes.sunRiseSet fallbackTimes equinox 0 0 "RISE" SunTimes.defaultOffset /\
  SunTimes.sunTransit exactSeconds equinox 0 = SunTimes.sunTransit fallbackTimes equinox 0.
Proof.
  destruct (solver_reads_one_setting exactSeconds fallbackTimes eq_refl)
    as (Hrise & Htransit & _).
  split; [apply Hrise|apply Htransit].
Defined.

(** A phase selector of one half. *)
Lemma truePhase_of_half_a_phase :
  MoonPhases.truePhase 0 0.5 =
  MoonPhases.meanPhase (timeConversions.kToT (0 + 0.5 / 4)) (0 + 0.5 / 4)
  + (0 + MoonPhases.commonCorrections
           (MoonPhases.planetaryArguments (timeConversions.kToT (0 + 0.5 / 4)) (0 + 0.5 / 4))).
Proof.
  exact (truePhase_other_phase 0 0.5 eq_refl eq_refl eq_refl eq_refl).
Defined.

(** The new moon of January 2000 and the three phases after it. *)
Example phases_of_january_2000 :
  MoonPhases.truePhase 0 0 = 2451550.2602577908 /\
  MoonPhases.truePhase 0 1 = 2451558.066086384 /\
  MoonPhases.truePhase 0 2 = 2451564.6954663121 /\
  MoonPhases.truePhase 0 3 = 2451571.8318413235.
Proof. repeat split; vm_compute; reflexivity. Qed.

(** ** Runs for the further facts *)

(** At 70 S on the June solstice the sun stays down: SUN_LOW. *)
Lemma polar_night_throws_sun_low :
  "SUN_LOW"%string = SunTimes.noEventCodes.SUN_HIGH \/
  "SUN_LOW"%string = SunTimes.noEventCodes.SUN_LOW.
Proof.
  apply (sunRiseSet_throws_two_codes exactSeconds solstice (-70) 0 "RISE"
           SunTimes.defaultOffset "SUN_LOW").
  vm_compute. reflexivity.
Defined.

(** The sunset of 2020-03-20 at 40 N, 3 W: two rounds of the loop, and a
    [DateTime] comes back. *)
Lemma sunset_after_the_check :
  exists m,
    SunTimes.fraction
      (SunTimes.sunRiseSetRun exactSeconds equinoxMorning 40 (-3) "SET" SunTimes.defaultOffset)
      = Some m /\
    SunTimes.sunRiseSet exactSeconds equinoxMorning 40 (-3) "SET" SunTimes.defaultOffset =
      andThen
        (SunTimes.localizeRiseSet exactSeconds (SunTimes.utcMidnight equinoxMorning) m UTC)
        SunTimes.IsDate /\
    (1 <= SunTimes.corrections
            (SunTimes.sunRiseSetRun exactSeconds equinoxMorning 40 (-3) "SET"
               SunTimes.defaultOffset) <= 3)%nat.
Proof.
  destruct (sunRiseSet_after_the_check exactSeconds equinoxMorning 40 (-3) "SET"
              SunTimes.defaultOffset 91.033894544472858) as [_ Hset].
  - vm_compute. reflexivity.
  - destruct Hset as (m & Hfraction & Hreturned & _ & _ & Hrounds); [now right|].
    exists m. split; [exact Hfraction|]. split; [exact Hreturned|exact Hrounds].
Defined.

(** The date passed is 09:30:00.250: the sunset comes back at 18:24:24.250. *)
Lemma sunset_keeps_the_quarter_second :
  zone {| ts := 1584728664250; zone := UTC; errorCode := None |} = zone equinoxMorning /\
  errorCode {| ts := 1584728664250; zone := UTC; errorCode := None |} = None /\
  (1584728664250 mod 1000 = localMillis equinoxMorning mod 1000)%Z.
Proof.
  apply (solver_keeps_zone_and_millisecond exactSeconds equinoxMorning 40 (-3) "SET"
           SunTimes.defaultOffset {| ts := 1584728664250; zone := UTC; errorCode := None |}).
  right. vm_compute. reflexivity.
Defined.

(** The transit of 12:19:19.250 is given as 12:19:00.250 with the setting. *)
Lemma transit_to_the_minute :
  (1584706740250 mod 60000 = localMillis equinoxMorning mod 1000)%Z /\
  exists d0,
    SunTimes.sunTransit exactSeconds equinoxMorning (-3) = Normal (Some d0) /\
    (-29000 <= 1584706740250 - ts d0 <= 30000)%Z /\
    ((1584706740250 - ts d0) mod 1000 = 0)%Z.
Proof.
  apply (rounding_to_the_minute wholeMinutes exactSeconds equinoxMorning 40 (-3) "SET"
           SunTimes.defaultOffset {| ts := 1584706740250; zone := UTC; errorCode := None |}).
  - reflexivity.
  - reflexivity.
  - vm_compute. reflexivity.
Defined.

(** Midnight and a quarter to seven in the evening of the same day in
    Sydney. *)
Lemma same_day_in_sydney :
  SunTimes.sunTransit exactSeconds solsticeSydney 151.21 =
    SunTimes.sunTransit exactSeconds solsticeSydneyEvening 151.21 /\
  SunTimes.sunRiseSetRun exactSeconds solsticeSydney (-33.87) 151.21 "RISE"
    SunTimes.defaultOffset =
  SunTimes.sunRiseSetRun exactSeconds solsticeSydneyEvening (-33.87) 151.21 "RISE"
    SunTimes.defaultOffset.
Proof.
  apply solver_uses_the_day_of_the_date; reflexivity.
Defined.

(** The offset counts: on the day the clocks of Oslo go forward, the date of
    its midnight (+01:00) and the date of its noon (+02:00) are on the same
    day in the same zone, and at the longitude 157 W [normalizeM] sends them
    to transits one day apart. *)
Example same_day_across_the_change_of_the_clocks :
  let noon := {| ts := 1585476000000; zone := oslo; errorCode := None |} in
  zone springForwardOslo = zone noon /\
  (localMillis springForwardOslo / 86400000 = localMillis noon / 86400000)%Z /\
  Luxon.offset springForwardOslo = 60%Z /\ Luxon.offset noon = 120%Z /\
  SunTimes.sunTransit exactSeconds springForwardOslo (-157) =
    Normal (Some {| ts := 1585521149000; zone := oslo; errorCode := None |}) /\
  SunTimes.sunTransit exactSeconds noon (-157) =
    Normal (Some {| ts := 1585434767000; zone := oslo; errorCode := None |}).
Proof. repeat split; vm_compute; reflexivity. Qed.

(** 50 N with the declination 20 N, and 50 S with 20 S. *)
Lemma mirror_at_50_degrees :
  SunTimes.approxLocalHourAngle (- 50) (- 20) SunTimes.defaultOffset =
  SunTimes.approxLocalHourAngle 50 20 SunTimes.defaultOffset.
Proof.
  apply (approxLocalHourAngle_mirror 50 20 SunTimes.defaultOffset); vm_compute; reflexivity.
Defined.

(** No code to report, in Sydney: 06:00 of the day comes back, as it is. *)
Lemma handleNoEventCase_of_the_empty_code :
  SunTimes.handleNoEventCase fallbackTimes solsticeSydneyEvening (Some EmptyString) 6 0 =
  SunTimes.NoEventDate {| ts := 1592683200000; zone := sydney; errorCode := None |}.
Proof.
  destruct (handleNoEventCase_without_code fallbackTimes solsticeSydneyEvening
              (Some EmptyString) 6 0) as [Hdate _].
  - now right.
  - destruct (Hdate eq_refl) as [-> _]. reflexivity.
Defined.

(** A 64th row changes nothing. *)
Lemma nutation_with_a_64th_row :
  @SunTimes.nutationInLongitude auxMathOps (withNutations tables nutationsAndOneMore) 0.2 =
    @SunTimes.nutationInLongitude auxMathOps tables 0.2 /\
  @SunTimes.nutationInObliquity auxMathOps (withNutations tables nutationsAndOneMore) 0.2 =
    @SunTimes.nutationInObliquity auxMathOps tables 0.2.
Proof.
  apply nutation_reads_63_rows.
  intros i j Hi _. unfold constants.at2, nutationsAndOneMore.
  change (@constants.nutations tables) with nutations.
  rewrite app_nth1; [reflexivity|exact Hi].
Defined.

(** A longitude that is NaN, at 50 N on the June solstice. *)
Lemma nan_longitude_on_the_solstice :
  SunTimes.sunTransit exactSeconds solstice nan = ThrowError "Invalid unit value NaN" /\
  SunTimes.sunRiseSet exactSeconds solstice 50 nan "RISE" SunTimes.defaultOffset =
    ThrowError "Invalid unit value NaN".
Proof.
  destruct (nan_longitude_throws_in_luxon exactSeconds solstice 50 nan "RISE"
              SunTimes.defaultOffset) as [Htransit Hrise].
  - reflexivity.
  - split; [exact Htransit|].
    apply (Hrise 122.77085764215497); [vm_compute; reflexivity|now left].
Defined.

(** A longitude of 1e20 degrees is a number: the count of seconds takes the
    date out of the range of [Date], and an invalid [DateTime] comes back. *)
Example huge_longitude_gives_an_invalid_date :
  SunTimes.sunTransit exactSeconds solstice 1e20 = Normal None /\
  SunTimes.sunRiseSet exactSeconds solstice 50 1e20 "RISE" SunTimes.defaultOffset =
    Normal (SunTimes.IsDate None).
Proof. split; vm_compute; reflexivity. Qed.

(** The full moon of a lunation that is NaN. *)
Lemma truePhase_of_nan :
  (MoonPhases.truePhase nan 2 =? MoonPhases.truePhase nan 2) = false.
Proof.
  apply truePhase_nan. left. reflexivity.
Defined.

(** A reduced angle of 250 degrees is an hour angle of -110. *)
Lemma localHourAngle_of_250_degrees :
  (SunTimes.localHourAngle 100 200 50 <=? 180) = true /\
  SunTimes.localHourAngle 100 200 50 = -110.
Proof.
  destruct (localHourAngle_at_most_180 100 200 50) as (Hbound & _ & Hturn).
  - vm_compute. reflexivity.
  - split; [exact Hbound|].
    destruct Hturn as [-> _]; vm_compute; reflexivity.
Defined.
